(** * FreqCalculator: the AI response normaliser and the metric engine

    A shallow embedding of [src/routes/index.tsx] (component [App]).

    JavaScript numbers are embedded as extended reals: a finite number is a
    real, and the special values NaN, +Infinity and -Infinity are kept,
    because the guards of the source exist to avoid them.  Binary rounding
    and the sign of zero are not represented (a zero divisor is read as +0).
    Functions of the host platform that the source calls but does not define
    ([parseFloat], [JSON.parse], [String.prototype.match], the string to
    number conversion) are section variables: every theorem holds for any
    behaviour of them. *)

From Stdlib Require Import Reals Lra Lia ZArith String Ascii List Bool.
Import ListNotations.
Open Scope string_scope.
Open Scope R_scope.

(** ** JavaScript numbers *)

Module Num.

Inductive num : Type :=
| NaN
| PInf
| NInf
| Fin (r : R).

Definition inf (positive : bool) : num := if positive then PInf else NInf.

Definition neg (x : num) : num :=
  match x with
  | NaN => NaN
  | PInf => NInf
  | NInf => PInf
  | Fin r => Fin (- r)
  end.

(** [x + y] *)
Definition add (x y : num) : num :=
  match x, y with
  | NaN, _ | _, NaN => NaN
  | PInf, NInf | NInf, PInf => NaN
  | PInf, _ | _, PInf => PInf
  | NInf, _ | _, NInf => NInf
  | Fin a, Fin b => Fin (a + b)
  end.

(** [x - y] *)
Definition sub (x y : num) : num := add x (neg y).

(** An infinity of the given sign times [y]. *)
Definition mul_inf (positive : bool) (y : num) : num :=
  match y with
  | NaN => NaN
  | PInf => inf positive
  | NInf => inf (negb positive)
  | Fin b =>
      if Req_dec_T b 0 then NaN
      else if Rlt_dec 0 b then inf positive else inf (negb positive)
  end.

(** [x * y] *)
Definition mul (x y : num) : num :=
  match x, y with
  | NaN, _ => NaN
  | PInf, _ => mul_inf true y
  | NInf, _ => mul_inf false y
  | Fin _, NaN => NaN
  | Fin _, PInf => mul_inf true x
  | Fin _, NInf => mul_inf false x
  | Fin a, Fin b => Fin (a * b)
  end.

(** [x / y] *)
Definition div (x y : num) : num :=
  match x, y with
  | NaN, _ | _, NaN => NaN
  | PInf, Fin b => if Rle_dec 0 b then PInf else NInf
  | NInf, Fin b => if Rle_dec 0 b then NInf else PInf
  | (PInf | NInf), (PInf | NInf) => NaN
  | Fin _, (PInf | NInf) => Fin 0
  | Fin a, Fin b =>
      if Req_dec_T b 0 then
        if Req_dec_T a 0 then NaN
        else if Rlt_dec 0 a then PInf else NInf
      else Fin (a / b)
  end.

(** [Math.min(x, y)] *)
Definition Math_min (x y : num) : num :=
  match x, y with
  | NaN, _ | _, NaN => NaN
  | NInf, _ | _, NInf => NInf
  | PInf, z | z, PInf => z
  | Fin a, Fin b => Fin (Rmin a b)
  end.

(** [Math.max(x, y)] *)
Definition Math_max (x y : num) : num :=
  match x, y with
  | NaN, _ | _, NaN => NaN
  | PInf, _ | _, PInf => PInf
  | NInf, z | z, NInf => z
  | Fin a, Fin b => Fin (Rmax a b)
  end.

(** [Math.sqrt(x)] *)
Definition Math_sqrt (x : num) : num :=
  match x with
  | NaN | NInf => NaN
  | PInf => PInf
  | Fin a => if Rlt_dec a 0 then NaN else Fin (sqrt a)
  end.

(** [Math.log10(x)] *)
Definition Math_log10 (x : num) : num :=
  match x with
  | NaN | NInf => NaN
  | PInf => PInf
  | Fin a =>
      if Rlt_dec a 0 then NaN
      else if Req_dec_T a 0 then NInf
      else Fin (ln a / ln 10)
  end.

(** [x === y] on numbers *)
Definition strict_eq (x y : num) : bool :=
  match x, y with
  | PInf, PInf | NInf, NInf => true
  | Fin a, Fin b => if Req_dec_T a b then true else false
  | _, _ => false
  end.

(** Truthiness of a number: every number but 0 and NaN. *)
Definition truthy (x : num) : bool :=
  match x with
  | NaN => false
  | PInf | NInf => true
  | Fin a => if Req_dec_T a 0 then false else true
  end.

(** The number is an ordinary real, neither NaN nor infinite. *)
Definition finite (x : num) : Prop := exists r, x = Fin r.

End Num.
Export Num.

Declare Scope num_scope.
Delimit Scope num_scope with num.
Bind Scope num_scope with num.
Infix "+" := add : num_scope.
Infix "-" := sub : num_scope.
Infix "*" := mul : num_scope.
Infix "/" := div : num_scope.
Notation "x === y" := (strict_eq x y) (at level 70, no associativity) : num_scope.
Coercion Fin : R >-> num.

(** ** Metric engine *)

Record SliderParams : Type := mkSliderParams {
  brandAwareness : num;
  marketSaturation : num;
  campaignGoal : num;
  targetAudience : num;
  productComplexity : num;
  messageComplexity : num
}.

Record KpiBenchmarks : Type := mkKpiBenchmarks {
  awareness_tom_base : num;
  consideration_search_base : num;
  conversion_uplift_base : num;
  retention_ltv_base : num
}.

Record AIFormData : Type := mkAIFormData {
  brandName : string;
  budget : string;
  formCampaignGoal : string   (* field [campaignGoal] of [AIFormData] *)
}.

(** Initial value of the [params] state, also set by [handleReset]. *)
Definition initialParams : SliderParams :=
  mkSliderParams 0 0 0 0 0 0.

(** Initial value of the [kpiBenchmarks] state. *)
Definition initialKpiBenchmarks : KpiBenchmarks :=
  mkKpiBenchmarks 0.15 0.25 0.08 0.04.

(** Initial value of the [taCapacityRF] state. *)
Definition initialTaCapacityRF : num := 1000000.

(** [Object.values(params)], in the order the keys are created. *)
Definition Object_values (p : SliderParams) : list num :=
  [ brandAwareness p; marketSaturation p; campaignGoal p;
    targetAudience p; productComplexity p; messageComplexity p ].

(** [!s] for a string: only the empty string is falsy. *)
Definition str_falsy (s : string) : bool := String.eqb s "".

Definition frequency (params : SliderParams) : num :=
  let sum := fold_left (fun acc val => acc + val)%num (Object_values params) (Fin 0) in
  let calculated := (1.0 + sum)%num in
  Math_max 1.0 (Math_min 15.0 calculated).

Definition getBaseTOM (kpiBenchmarks : KpiBenchmarks) (goal : string) : num :=
  if String.eqb goal "awareness" then awareness_tom_base kpiBenchmarks
  else if String.eqb goal "consideration" then consideration_search_base kpiBenchmarks
  else if String.eqb goal "conversion" then conversion_uplift_base kpiBenchmarks
  else if String.eqb goal "retention" then retention_ltv_base kpiBenchmarks
  else 0.15.

Definition getGoalMultiplier (goal : string) : num :=
  if String.eqb goal "awareness" then 1.0
  else if String.eqb goal "consideration" then 0.7
  else if String.eqb goal "conversion" then 0.4
  else if String.eqb goal "retention" then 0.2
  else 1.0.

(** The object literal [goalMultipliers] of [calculateLTVGrowth]: its own
    properties. *)
Definition goalMultipliers (key : string) : option num :=
  if String.eqb key "awareness" then Some (Fin 0.3)
  else if String.eqb key "consideration" then Some (Fin 0.5)
  else if String.eqb key "conversion" then Some (Fin 0.8)
  else if String.eqb key "retention" then Some (Fin 1.0)
  else None.

Section MetricEngine.

(** [parseFloat] of the host. *)
Variable parseFloat : string -> num.

(** Whether a key names a member that every object literal inherits from
    [Object.prototype] (such as [toString]).  Such a member is a truthy
    function or object, and NaN as an arithmetic operand. *)
Variable inheritedKey : string -> bool.

(** [goalMultipliers[goal] || 0.5], as the factor it is used as. *)
Definition ltvGoalMultiplier (goal : string) : num :=
  match goalMultipliers goal with
  | Some v => if truthy v then v else 0.5
  | None => if inheritedKey goal then NaN else 0.5
  end.

Definition calculateTOM (aiForm : AIFormData) (frequency : num)
    (kpiBenchmarks : KpiBenchmarks) : num :=
  if str_falsy (budget aiForm) || str_falsy (formCampaignGoal aiForm) then 0
  else
    let budget := parseFloat (budget aiForm) in
    let baseTOM := getBaseTOM kpiBenchmarks (formCampaignGoal aiForm) in
    let frequencyMultiplier := (1 + (frequency - 1.0) * 0.08)%num in
    let budgetCorrection := Math_sqrt (budget / 500000) in
    let goalMultiplier := getGoalMultiplier (formCampaignGoal aiForm) in
    (baseTOM * frequencyMultiplier * budgetCorrection * goalMultiplier * 100 * 3.5)%num.

Definition calculateLTVGrowth (aiForm : AIFormData) (frequency : num)
    (params : SliderParams) (kpiBenchmarks : KpiBenchmarks) : num :=
  if str_falsy (budget aiForm) || str_falsy (formCampaignGoal aiForm) then 0
  else
    let baseLTV := retention_ltv_base kpiBenchmarks in
    let goalMultiplier := ltvGoalMultiplier (formCampaignGoal aiForm) in
    let frequencyMultiplier := (1 + (frequency - 1.0) * 0.05)%num in
    let competitionCorrection := (1 - (marketSaturation params * 0.1))%num in
    let budget := parseFloat (budget aiForm) in
    let budgetQualityMultiplier :=
      Math_min (1.0 + Math_log10 (budget / 1000000))%num 2.0 in
    (baseLTV * goalMultiplier * frequencyMultiplier * competitionCorrection
     * budgetQualityMultiplier * 100 * 7)%num.

Definition calculateCoverage (aiForm : AIFormData) (frequency : num)
    (taCapacityRF : num) : num :=
  if str_falsy (budget aiForm) || (frequency === 0)%num || (taCapacityRF === 0)%num
  then 0
  else
    let budget := parseFloat (budget aiForm) in
    let cpm : num := 400 in
    let impressions := ((budget / cpm) * 1000)%num in
    let reach := (impressions / frequency)%num in
    let coverage := ((reach / taCapacityRF) * 100 * 0.08)%num in
    coverage.

End MetricEngine.

(** ** Run-time values

    The AI tool's answer reaches the component through [JSON.parse], so at
    run time it is an arbitrary JSON value whatever its TypeScript type says
    (the casts [as AIResponse] are not checked).  [undefined], which JSON
    cannot express, is [None] of [option jsval]. *)

#[warnings="-register-all"]
Inductive jsval : Type :=
| JNull
| JBool (b : bool)
| JNum (n : num)
| JStr (s : string)
| JArr (items : list jsval)
| JObj (fields : list (string * jsval)).

Fixpoint lookup (key : string) (fields : list (string * jsval)) : option jsval :=
  match fields with
  | [] => None
  | (k, v) :: rest => if String.eqb k key then Some v else lookup key rest
  end.

(** [v[key]] / [v.key] for a value that is neither [null] nor [undefined]
    (the source never reads a property of those) and a key that is neither
    an array index, [length], nor inherited: all keys of the source are
    such.  Only an object has such a property. *)
Definition get (v : jsval) (key : string) : option jsval :=
  match v with
  | JObj fields => lookup key fields
  | _ => None
  end.

(** [entry?.key] *)
Definition optGet (entry : option jsval) (key : string) : option jsval :=
  match entry with
  | None | Some JNull => None
  | Some e => get e key
  end.

(** [key in v]; [None] when the operator throws a TypeError, which it does
    for every right operand that is not an object.  As for [get], the keys
    of the source are neither indices nor inherited names. *)
Definition js_in (key : string) (v : jsval) : option bool :=
  match v with
  | JObj fields =>
      match lookup key fields with
      | Some _ => Some true
      | None => Some false
      end
  | JArr _ => Some false
  | _ => None
  end.

Definition truthy_val (v : jsval) : bool :=
  match v with
  | JNull => false
  | JBool b => b
  | JNum n => truthy n
  | JStr s => negb (str_falsy s)
  | JArr _ | JObj _ => true
  end.

Definition truthy_opt (o : option jsval) : bool :=
  match o with
  | Some v => truthy_val v
  | None => false
  end.

(** [o || d] *)
Definition or_default (o : option jsval) (d : jsval) : jsval :=
  match o with
  | Some v => if truthy_val v then v else d
  | None => d
  end.

(** [o ?? d] *)
Definition nullish (o : option jsval) (d : jsval) : jsval :=
  match o with
  | None | Some JNull => d
  | Some v => v
  end.

(** [typeof v === 'object' && v !== null] *)
Definition is_object (v : jsval) : bool :=
  match v with
  | JArr _ | JObj _ => true
  | _ => false
  end.

(** ** State of the component touched by the response effect

    The setters store the run-time value they are given, so the capacity,
    the benchmarks, the texts and the budget advice are kept as [jsval];
    the sliders are numbers, because [clamp] returns one.  The metric engine
    above is embedded at the declared types of its inputs. *)

Inductive ParamView : Type := manual | ai.

Record AIInsight : Type := mkAIInsight {
  id : string;
  value : num;
  insight : jsval;
  source : jsval
}.

Record State : Type := mkState {
  params : SliderParams;
  insights : list (string * AIInsight);
  taCapacityRF : jsval;
  kpiBenchmarks : jsval;
  aiErrorMessage : jsval;
  recommendedBudget : jsval;
  budgetReasoning : jsval;
  analysisComplete : bool;
  paramView : ParamView
}.

(** The four benchmark constants as the object literal of the source. *)
Definition defaultKpiBenchmarks : jsval :=
  JObj [ ("awareness_tom_base", JNum 0.15);
         ("consideration_search_base", JNum 0.25);
         ("conversion_uplift_base", JNum 0.08);
         ("retention_ltv_base", JNum 0.04) ].

Definition initialState : State :=
  mkState initialParams [] (JNum initialTaCapacityRF) defaultKpiBenchmarks
          (JStr "") JNull (JStr "") false manual.

(** ** Effects: state, early [return], exceptions *)

Inductive outcome (A : Type) : Type :=
| Val (a : A)
| Returned
| Threw (message : string).
Arguments Val {A} a.
Arguments Returned {A}.
Arguments Threw {A} message.

Definition Eff (A : Type) : Type := State -> outcome A * State.

Definition ret {A} (a : A) : Eff A := fun st => (Val a, st).

Definition bind {A B} (m : Eff A) (k : A -> Eff B) : Eff B :=
  fun st =>
    match m st with
    | (Val a, st') => k a st'
    | (Returned, st') => (Returned, st')
    | (Threw e, st') => (Threw e, st')
    end.

(** [throw new Error(message)] *)
Definition throw {A} (message : string) : Eff A := fun st => (Threw message, st).

(** [return;] *)
Definition return_ {A} : Eff A := fun st => (Returned, st).

(** [try { body } catch (e) { handler(e.message) }] *)
Definition try_catch (body : Eff unit) (handler : string -> Eff unit) : Eff unit :=
  fun st =>
    match body st with
    | (Threw e, st') => handler e st'
    | r => r
    end.

Notation "x <- m ;; k" := (bind m (fun x => k))
  (at level 61, m at next level, right associativity).
Notation "m ;;; k" := (bind m (fun _ => k))
  (at level 61, right associativity).

Definition setParams (v : SliderParams) : Eff unit := fun st =>
  (Val tt, mkState v (insights st) (taCapacityRF st) (kpiBenchmarks st)
     (aiErrorMessage st) (recommendedBudget st) (budgetReasoning st)
     (analysisComplete st) (paramView st)).

Definition setInsights (v : list (string * AIInsight)) : Eff unit := fun st =>
  (Val tt, mkState (params st) v (taCapacityRF st) (kpiBenchmarks st)
     (aiErrorMessage st) (recommendedBudget st) (budgetReasoning st)
     (analysisComplete st) (paramView st)).

Definition setTaCapacityRF (v : jsval) : Eff unit := fun st =>
  (Val tt, mkState (params st) (insights st) v (kpiBenchmarks st)
     (aiErrorMessage st) (recommendedBudget st) (budgetReasoning st)
     (analysisComplete st) (paramView st)).

Definition setKpiBenchmarks (v : jsval) : Eff unit := fun st =>
  (Val tt, mkState (params st) (insights st) (taCapacityRF st) v
     (aiErrorMessage st) (recommendedBudget st) (budgetReasoning st)
     (analysisComplete st) (paramView st)).

Definition setAIErrorMessage (v : jsval) : Eff unit := fun st =>
  (Val tt, mkState (params st) (insights st) (taCapacityRF st) (kpiBenchmarks st)
     v (recommendedBudget st) (budgetReasoning st)
     (analysisComplete st) (paramView st)).

Definition setRecommendedBudget (v : jsval) : Eff unit := fun st =>
  (Val tt, mkState (params st) (insights st) (taCapacityRF st) (kpiBenchmarks st)
     (aiErrorMessage st) v (budgetReasoning st)
     (analysisComplete st) (paramView st)).

Definition setBudgetReasoning (v : jsval) : Eff unit := fun st =>
  (Val tt, mkState (params st) (insights st) (taCapacityRF st) (kpiBenchmarks st)
     (aiErrorMessage st) (recommendedBudget st) v
     (analysisComplete st) (paramView st)).

Definition setAnalysisComplete (v : bool) : Eff unit := fun st =>
  (Val tt, mkState (params st) (insights st) (taCapacityRF st) (kpiBenchmarks st)
     (aiErrorMessage st) (recommendedBudget st) (budgetReasoning st)
     v (paramView st)).

Definition setParamView (v : ParamView) : Eff unit := fun st =>
  (Val tt, mkState (params st) (insights st) (taCapacityRF st) (kpiBenchmarks st)
     (aiErrorMessage st) (recommendedBudget st) (budgetReasoning st)
     (analysisComplete st) v).

(** ** The response effect *)

Definition clamp (val : num) : num := Math_max (-2.0) (Math_min 2.0 val).

(** The fixed list scanned by the fourth strategy. *)
Definition possibleFields : list string :=
  ["content"; "text"; "output"; "result"; "data"].

Section ResponseEffect.

(** [JSON.parse]: the value, or the message of the SyntaxError it throws. *)
Variable JSON_parse : string -> jsval + string.

(** [text.match(/```json\s*([\s\S]*?)\s*```/)]: the whole match and its
    first group. *)
Variable match_fenced : string -> option (string * string).

(** [text.match(/\{[\s\S]*?"parameters"[\s\S]*?\}/)]: the whole match. *)
Variable match_braces : string -> option string.

(** The message of the TypeError that [key in v] throws for a [v] that is
    not an object. *)
Variable in_TypeError : string -> jsval -> string.

(** The conversion of a string to a number. *)
Variable StringToNumber : string -> num.

(** [Array.prototype.toString]: the joined text, or the message of the
    TypeError thrown while an element is converted to a string. *)
Variable ArrayToString : list jsval -> string + string.

(** The message of the TypeError thrown when an object has no primitive
    value. *)
Variable ToPrimitive_TypeError : jsval -> string.

(** The conversion to a number that [Math.min] applies to its arguments:
    the number, or the message of the TypeError it throws.  An object is
    first converted to a primitive value: its [valueOf] gives the object
    back, and its [toString] is the inherited one, whose text is not a
    number, unless the object has a field [toString] of its own; such a
    field of a parsed JSON value is never a function, and the conversion
    throws. *)
Definition ToNumber (v : jsval) : num + string :=
  match v with
  | JNull => inl (Fin 0)
  | JBool true => inl (Fin 1)
  | JBool false => inl (Fin 0)
  | JNum n => inl n
  | JStr s => inl (StringToNumber s)
  | JArr items =>
      match ArrayToString items with
      | inl text => inl (StringToNumber text)
      | inr message => inr message
      end
  | JObj fields =>
      match lookup "toString" fields with
      | Some _ => inr (ToPrimitive_TypeError v)
      | None => inl NaN
      end
  end.

(** [key in v] as a step that may throw. *)
Definition in_ (key : string) (v : jsval) : Eff bool :=
  match js_in key v with
  | Some b => ret b
  | None => throw (in_TypeError key v)
  end.

(** [JSON.parse(text)] as a step that may throw. *)
Definition parse (text : string) : Eff jsval :=
  match JSON_parse text with
  | inl v => ret v
  | inr message => throw message
  end.

(** [text.match(fenced) || text.match(braces)], then
    [jsonMatch[1] || jsonMatch[0]]. *)
Definition jsonText (text : string) : option string :=
  match match_fenced text with
  | Some (whole, group1) => Some (if str_falsy group1 then whole else group1)
  | None => match_braces text
  end.

(** [clamp(parameters.<key>?.value ?? 0)]: [Math.min] converts the value to
    a number, which may throw; the number is then clamped. *)
Definition paramValue (parameters : jsval) (key : string) : num + string :=
  match ToNumber (nullish (optGet (get parameters key) "value") (JNum 0)) with
  | inl n => inl (clamp n)
  | inr message => inr message
  end.

(** The object literal [newParams]: its six values are computed in the order
    written, and the first conversion that throws ends the evaluation. *)
Definition newParams (parameters : jsval) : SliderParams + string :=
  match paramValue parameters "brand_awareness" with
  | inr message => inr message
  | inl v1 =>
  match paramValue parameters "market_saturation" with
  | inr message => inr message
  | inl v2 =>
  match paramValue parameters "campaign_goal" with
  | inr message => inr message
  | inl v3 =>
  match paramValue parameters "target_audience" with
  | inr message => inr message
  | inl v4 =>
  match paramValue parameters "product_complexity" with
  | inr message => inr message
  | inl v5 =>
  match paramValue parameters "message_complexity" with
  | inr message => inr message
  | inl v6 =>
      inl {| brandAwareness := v1;
             marketSaturation := v2;
             campaignGoal := v3;
             targetAudience := v4;
             productComplexity := v5;
             messageComplexity := v6 |}
  end end end end end end.

(** One entry of [newInsights]. *)
Definition newInsight (parameters : jsval) (key : string) (v : num) : AIInsight :=
  {| id := key;
     value := v;
     insight := or_default (optGet (get parameters key) "insight")
                  (JStr "Инсайт недоступен");
     source := or_default (optGet (get parameters key) "source")
                  (JStr "ИИ-Анализ") |}.

Definition newInsights (parameters : jsval) (p : SliderParams)
  : list (string * AIInsight) :=
  [ ("brand_awareness", newInsight parameters "brand_awareness" (brandAwareness p));
    ("market_saturation", newInsight parameters "market_saturation" (marketSaturation p));
    ("campaign_goal", newInsight parameters "campaign_goal" (campaignGoal p));
    ("target_audience", newInsight parameters "target_audience" (targetAudience p));
    ("product_complexity", newInsight parameters "product_complexity" (productComplexity p));
    ("message_complexity", newInsight parameters "message_complexity" (messageComplexity p)) ].

(** Strategy 1, on [choices[0]]: every defect is thrown, none falls through
    to the later strategies. *)
Definition fromChoice (choice : jsval) : Eff jsval :=
  hasMessage <- in_ "message" choice ;;
  match (if hasMessage then get choice "message" else None) with
  | Some message =>
      if is_object message then
        hasContent <- in_ "content" message ;;
        if hasContent then
          match get message "content" with
          | Some (JStr content) =>
              match JSON_parse content with
              | inl v => ret v
              | inr _ =>
                  match jsonText content with
                  | Some text => parse text
                  | None => throw "JSON не найден в строке content"
                  end
              end
          | Some content =>
              if is_object content then ret content
              else throw "Неверный тип content в ответе OpenAI"
          | None => throw "Неверный тип content в ответе OpenAI"
          end
        else throw "Нет поля content в message"
      else throw "Нет поля message в choice"
  | None => throw "Нет поля message в choice"
  end.

(** Strategy 4: the loop over [possibleFields]; [Some] is [found = true]
    with the value assigned to [parsed]. *)
Fixpoint scanFields (response : jsval) (fields : list string) : option jsval :=
  match fields with
  | [] => None
  | field :: rest =>
      match js_in field response with
      | Some true =>
          match get response field with
          | Some (JStr fieldValue) =>
              match JSON_parse fieldValue with
              | inl v => Some v
              | inr _ =>
                  match jsonText fieldValue with
                  | Some text =>
                      match JSON_parse text with
                      | inl v => Some v
                      | inr _ => scanFields response rest
                      end
                  | None => scanFields response rest
                  end
              end
          | Some fieldValue =>
              match is_object fieldValue, js_in "parameters" fieldValue with
              | true, Some true => Some fieldValue
              | _, _ => scanFields response rest
              end
          | None => scanFields response rest
          end
      | _ => scanFields response rest
      end
  end.

(** The chain of strategies: the value assigned to [parsed]. *)
Definition extract (response : jsval) : Eff jsval :=
  hasChoices <- in_ "choices" response ;;
  match (if hasChoices then get response "choices" else None) with
  | Some (JArr (choice :: _)) => fromChoice choice
  | _ =>
      hasParameters <- in_ "parameters" response ;;
      if hasParameters then ret response
      else
        match response with
        | JStr responseText =>
            match JSON_parse responseText with
            | inl v => ret v
            | inr _ =>
                match jsonText responseText with
                | Some text => parse text
                | None =>
                    setAIErrorMessage (JStr "Валидный JSON не найден в ответе ИИ") ;;;
                    return_
                end
            end
        | JArr _ | JObj _ =>
            match scanFields response possibleFields with
            | Some v => ret v
            | None =>
                setAIErrorMessage (JStr "Не удалось извлечь данные ИИ-анализа из ответа") ;;;
                return_
            end
        | _ =>
            setAIErrorMessage (JStr "Неверный формат ответа от ИИ") ;;;
            return_
        end
  end.

(** [parsed.parameters] when [!parsed || !parsed.parameters] is false. *)
Definition validParameters (parsed : jsval) : option jsval :=
  if truthy_val parsed then
    match get parsed "parameters" with
    | Some parameters => if truthy_val parameters then Some parameters else None
    | None => None
    end
  else None.

(** The end of the [try] block once the payload has its parameters: the
    sliders are computed, which may throw, and then the setters run. *)
Definition commit (validatedParsed parameters : jsval) : Eff unit :=
  match newParams parameters with
  | inr message => throw message
  | inl np =>
      let ni := newInsights parameters np in
      setParams np ;;;
      setInsights ni ;;;
      setTaCapacityRF (or_default (get validatedParsed "ta_capacity_rf") (JNum 1000000)) ;;;
      setKpiBenchmarks (or_default (get validatedParsed "kpi_benchmarks") defaultKpiBenchmarks) ;;;
      setRecommendedBudget (or_default (get validatedParsed "recommended_budget") JNull) ;;;
      setBudgetReasoning (or_default (get validatedParsed "budget_reasoning") (JStr "")) ;;;
      setAnalysisComplete true ;;;
      setAIErrorMessage (JStr "") ;;;
      setParamView ai
  end.

(** The body of the [try] block. *)
Definition tryBody (response : jsval) : Eff unit :=
  parsed <- extract response ;;
  match validParameters parsed with
  | None =>
      setAIErrorMessage (JStr "Отсутствуют параметры в ответе ИИ") ;;;
      return_
  | Some parameters => commit parsed parameters
  end.

(** The effect that runs when [aiData] changes; [None] is [undefined]. *)
Definition processAIResponse (aiData : option jsval) : Eff unit :=
  match aiData with
  | None => return_
  | Some aiData =>
      if negb (truthy_val aiData) then return_
      else if negb (truthy_opt (get aiData "successful")) then
        let errorMsg := or_default (get aiData "error") (JStr "Ошибка ИИ-анализа") in
        setAIErrorMessage errorMsg ;;;
        return_
      else
        match optGet (get aiData "data") "response" with
        | Some response =>
            if truthy_val response then
              try_catch (tryBody response)
                (fun message =>
                   setAIErrorMessage
                     (JStr ("Не удалось распарсить ответ ИИ: " ++ message)))
            else
              setAIErrorMessage (JStr "Нет данных ответа от ИИ") ;;;
              return_
        | None =>
            setAIErrorMessage (JStr "Нет данных ответа от ИИ") ;;;
            return_
        end
  end.

(** What a step of the extraction can do to the state. *)
Inductive extracted (st : State) : outcome jsval * State -> Prop :=
| ex_value v : extracted st (Val v, st)
| ex_thrown message : extracted st (Threw message, st)
| ex_reported msg :
    truthy_val msg = true ->
    extracted st (Returned, snd (setAIErrorMessage msg st)).

End ResponseEffect.

(** ** Predicates used in the statements *)

(** Every slider holds an ordinary real. *)
Definition realValued (p : SliderParams) : Prop :=
  Forall finite (Object_values p).

(** Every slider holds a real of the slider range [-2, 2]. *)
Definition inSliderRange (p : SliderParams) : Prop :=
  Forall (fun v => exists r, v = Fin r /\ -2 <= r <= 2) (Object_values p).

(** The local [sum] of [frequency]. *)
Definition sliderSum (p : SliderParams) : num :=
  fold_left (fun acc val => acc + val)%num (Object_values p) (Fin 0).

(** The six fixed keys of the payload, each with the slider it feeds, as
    [newParams] pairs them. *)
Definition sixKeys : list (string * (SliderParams -> num)) :=
  [ ("brand_awareness", brandAwareness);
    ("market_saturation", marketSaturation);
    ("campaign_goal", campaignGoal);
    ("target_audience", targetAudience);
    ("product_complexity", productComplexity);
    ("message_complexity", messageComplexity) ].

(** [insights[key]] *)
Fixpoint insightOf (key : string) (l : list (string * AIInsight)) : option AIInsight :=
  match l with
  | [] => None
  | (k, v) :: rest => if String.eqb k key then Some v else insightOf key rest
  end.

(** The two states agree on everything but the error message. *)
Definition sameButMessage (st st' : State) : Prop :=
  params st' = params st /\
  insights st' = insights st /\
  taCapacityRF st' = taCapacityRF st /\
  kpiBenchmarks st' = kpiBenchmarks st /\
  recommendedBudget st' = recommendedBudget st /\
  budgetReasoning st' = budgetReasoning st /\
  analysisComplete st' = analysisComplete st /\
  paramView st' = paramView st.

(** ** Host functions for the examples

    Instances of the section variables, used only to run the definitions on
    concrete inputs. *)

Definition digit_of (c : ascii) : option Z :=
  let n := nat_of_ascii c in
  if (48 <=? n)%nat && (n <=? 57)%nat then Some (Z.of_nat (n - 48)) else None.

(** Reads the longest prefix of digits: the number read so far, how many
    digits were read, and the rest. *)
Fixpoint digits (s : string) (acc : Z) (count : nat) : Z * nat * string :=
  match s with
  | String c rest =>
      match digit_of c with
      | Some d => digits rest (10 * acc + d)%Z (S count)
      | None => (acc, count, s)
      end
  | EmptyString => (acc, count, s)
  end.

(** Sign, digits without the point, and number of digits after the point. *)
Definition parseDecimal (s : string) : option (bool * Z * nat) :=
  let (negative, body) :=
    match s with
    | String "-" r => (true, r)
    | String "+" r => (false, r)
    | _ => (false, s)
    end in
  let '(int, n1, rest) := digits body 0%Z 0%nat in
  let '(mantissa, n2, _) :=
    match rest with
    | String "." r => digits r int 0%nat
    | _ => (int, 0%nat, rest)
    end in
  if (n1 + n2 =? 0)%nat then None else Some (negative, mantissa, n2).

(** [parseFloat] on plain decimal numerals (no leading blanks, no exponent). *)
Definition parseFloat_plain (s : string) : num :=
  match parseDecimal s with
  | Some (negative, mantissa, decimals) =>
      Fin ((if negative then -1 else 1) * IZR mantissa / IZR (10 ^ Z.of_nat decimals))
  | None => NaN
  end.

(** No key is inherited: enough for the four goals of the form. *)
Definition inheritedKey_none (key : string) : bool := false.

(** The text [{"parameters":{}}]. *)
Definition payloadText : string :=
  "{" ++ String (ascii_of_nat 34) "parameters" ++ String (ascii_of_nat 34) ":{}}".

(** [JSON.parse] at the texts of the examples; any other text is rejected. *)
Definition JSON_parse_sample (text : string) : jsval + string :=
  if String.eqb text payloadText then inl (JObj [("parameters", JObj [])])
  else if String.eqb text "{}" then inl (JObj [])
  else inr "Unexpected token".

Definition match_fenced_sample (text : string) : option (string * string) := None.

Definition match_braces_sample (text : string) : option string := None.

Definition in_TypeError_sample (key : string) (v : jsval) : string :=
  "Cannot use 'in' operator to search for '" ++ key ++ "'".

(** The conversion of a string to a number, right on the empty string and
    on plain decimal numerals. *)
Definition StringToNumber_sample (s : string) : num :=
  if str_falsy s then 0 else parseFloat_plain s.

(** [Array.prototype.toString], right on the empty array. *)
Definition ArrayToString_sample (items : list jsval) : string + string :=
  inl EmptyString.

Definition ToPrimitive_TypeError_sample (v : jsval) : string :=
  "Cannot convert object to primitive value".

(** The effect under the example host. *)
Definition processAIResponse_sample : option jsval -> Eff unit :=
  processAIResponse JSON_parse_sample match_fenced_sample match_braces_sample
    in_TypeError_sample StringToNumber_sample ArrayToString_sample
    ToPrimitive_TypeError_sample.

Definition extract_sample : jsval -> Eff jsval :=
  extract JSON_parse_sample match_fenced_sample match_braces_sample
    in_TypeError_sample.

(** ** Example answers of the AI tool *)

(** The answer of a successful tool call carrying [response]. *)
Definition successfulAnswer (response : jsval) : jsval :=
  JObj [ ("data", JObj [("response", response)]);
         ("error", JNull);
         ("successful", JBool true) ].

(** The answer of a failed tool call. *)
Definition failedAnswer : jsval :=
  JObj [ ("data", JObj []);
         ("error", JStr "rate limit exceeded");
         ("successful", JBool false) ].

(** A payload whose only parameter carries the given insight text. *)
Definition payloadWithInsight (text : string) : jsval :=
  JObj [ ("parameters",
          JObj [("brand_awareness",
                 JObj [("value", JNum 0.5); ("insight", JStr text)])]) ].

(** An envelope of both shapes: an OpenAI-style [choices] whose content is
    an object, and a top-level [parameters] field. *)
Definition bothShapes : jsval :=
  JObj [ ("choices",
          JArr [JObj [("message",
                       JObj [("role", JStr "assistant");
                             ("content", payloadWithInsight "inner")])]]);
         ("parameters",
          JObj [("brand_awareness",
                 JObj [("value", JNum 0.5); ("insight", JStr "outer")])]) ].

(** The same, the content being the text [{"parameters":{}}]. *)
Definition bothShapesText : jsval :=
  JObj [ ("choices",
          JArr [JObj [("message", JObj [("content", JStr payloadText)])]]);
         ("parameters", JObj []) ].

(** [choices] is present but its first element has no [message.content];
    the envelope itself has a [parameters] field. *)
Definition choicesWithoutContent : jsval :=
  JObj [ ("choices", JArr [JObj [("index", JNum 0)]]);
         ("parameters", JObj []) ].

(** A chat completion whose content is prose without any JSON. *)
Definition proseAnswer : jsval :=
  JObj [ ("choices",
          JArr [JObj [("message", JObj [("content", JStr "Sorry, no data.")])]]) ].

(** A payload whose [brand_awareness.value] is the boolean [true]. *)
Definition booleanValuePayload : jsval :=
  JObj [ ("parameters", JObj [("brand_awareness", JObj [("value", JBool true)])]) ].

(** A payload whose [brand_awareness.value] is the empty object. *)
Definition objectValuePayload : jsval :=
  JObj [ ("parameters", JObj [("brand_awareness", JObj [("value", JObj [])])]) ].

(** A payload whose [brand_awareness.value] is an object with a field
    [toString]. *)
Definition unconvertiblePayload : jsval :=
  JObj [ ("parameters",
          JObj [("brand_awareness",
                 JObj [("value", JObj [("toString", JNum 1)])])]) ].

(** A payload with the given [ta_capacity_rf]. *)
Definition capacityPayload (capacity : num) : jsval :=
  JObj [ ("parameters", JObj []); ("ta_capacity_rf", JNum capacity) ].

(** A state holding the result of an earlier analysis. *)
Definition previousState : State :=
  {| params := mkSliderParams 1.5 (-0.5) 0 0.3 2 (-2);
     insights :=
       [("brand_awareness",
         mkAIInsight "brand_awareness" 1.5 (JStr "well known") (JStr "survey"))];
     taCapacityRF := JNum 1500000;
     kpiBenchmarks := defaultKpiBenchmarks;
     aiErrorMessage := JStr "";
     recommendedBudget := JNum 2500000;
     budgetReasoning := JStr "reach";
     analysisComplete := true;
     paramView := ai |}.

(** ** Presentation of the results *)

(** [x <= y] on numbers; false as soon as one of them is NaN. *)
Definition num_le (x y : num) : bool :=
  match x, y with
  | NaN, _ | _, NaN => false
  | NInf, _ | _, PInf => true
  | PInf, _ | _, NInf => false
  | Fin a, Fin b => if Rle_dec a b then true else false
  end.

Definition getFrequencyDescription (freq : num) : string :=
  if num_le freq 3 then
    "Низкая частота контакта - подходит для известных брендов с высокой узнаваемостью"
  else if num_le freq 6 then
    "Средняя частота контакта - оптимальна для большинства рекламных кампаний"
  else if num_le freq 10 then
    "Высокая частота контакта - необходима для сложных продуктов или новых брендов"
  else
    "Очень высокая частота контакта - для максимального охвата и запоминаемости".

Definition getKPILabel (goal : string) : string :=
  if String.eqb goal "awareness" then "Top of Mind (ТОМ)"
  else if String.eqb goal "consideration" then "Рост поисковых запросов"
  else if String.eqb goal "conversion" then "Прирост конверсий"
  else if String.eqb goal "retention" then "Рост LTV"
  else "Эффективность".

(** Which of the two metrics the KPI card shows. *)
Inductive ShownMetric : Type := ShowsLTVGrowth | ShowsTOM.

(** [aiForm.campaignGoal === "retention" ? calculateLTVGrowth : calculateTOM] *)
Definition shownMetric (goal : string) : ShownMetric :=
  if String.eqb goal "retention" then ShowsLTVGrowth else ShowsTOM.

Section Presentation.

(** The conversion of a number to text inside a template literal. *)
Variable NumberToString : num -> string.

Definition getFrequencyColor (freq : num) : string :=
  let normalized := ((freq - 1.0) / 14.0)%num in
  let hue := ((1 - normalized) * 120)%num in
  "hsl(" ++ NumberToString hue ++ ", 70%, 50%)".

Definition getInsightColor (value : num) : string :=
  let normalized := ((value + 2.0) / 4.0)%num in
  let hue := (normalized * 120)%num in
  "hsl(" ++ NumberToString hue ++ ", 70%, 50%)".

End Presentation.

(** ** The retry policy of the search hook *)

(** [retryDelay]: [Math.min(1000 * 2 ** attemptIndex, 30000)], the attempt
    index being a natural number. *)
Definition retryDelay (attemptIndex : nat) : num :=
  Math_min (1000 * Fin (2 ^ attemptIndex))%num 30000.

(** ** The whole component state and its handlers *)

Inductive WizardStep : Type := stepBrand | stepParams | stepResults.

(** The keys of [SliderParams]. *)
Inductive SliderKey : Type :=
| keyBrandAwareness
| keyMarketSaturation
| keyCampaignGoal
| keyTargetAudience
| keyProductComplexity
| keyMessageComplexity.

(** [params[key]] *)
Definition sliderOf (key : SliderKey) (p : SliderParams) : num :=
  match key with
  | keyBrandAwareness => brandAwareness p
  | keyMarketSaturation => marketSaturation p
  | keyCampaignGoal => campaignGoal p
  | keyTargetAudience => targetAudience p
  | keyProductComplexity => productComplexity p
  | keyMessageComplexity => messageComplexity p
  end.

(** [{ ...prev, [key]: v }]: the key keeps its place in the object. *)
Definition withSlider (key : SliderKey) (v : num) (prev : SliderParams) : SliderParams :=
  match key with
  | keyBrandAwareness =>
      mkSliderParams v (marketSaturation prev) (campaignGoal prev)
        (targetAudience prev) (productComplexity prev) (messageComplexity prev)
  | keyMarketSaturation =>
      mkSliderParams (brandAwareness prev) v (campaignGoal prev)
        (targetAudience prev) (productComplexity prev) (messageComplexity prev)
  | keyCampaignGoal =>
      mkSliderParams (brandAwareness prev) (marketSaturation prev) v
        (targetAudience prev) (productComplexity prev) (messageComplexity prev)
  | keyTargetAudience =>
      mkSliderParams (brandAwareness prev) (marketSaturation prev) (campaignGoal prev)
        v (productComplexity prev) (messageComplexity prev)
  | keyProductComplexity =>
      mkSliderParams (brandAwareness prev) (marketSaturation prev) (campaignGoal prev)
        (targetAudience prev) v (messageComplexity prev)
  | keyMessageComplexity =>
      mkSliderParams (brandAwareness prev) (marketSaturation prev) (campaignGoal prev)
        (targetAudience prev) (productComplexity prev) v
  end.

(** [handleSliderChange(key)(value)] on the [params] state.  [value[0]] of
    an empty array is [undefined], which is not a number: that case is
    [None]. *)
Definition handleSliderChange (key : SliderKey) (value : list num)
    (prev : SliderParams) : option SliderParams :=
  match value with
  | v :: _ => Some (withSlider key v prev)
  | [] => None
  end.

Record PerplexitySearchInput : Type := mkPerplexitySearchInput {
  systemContent : string;
  userContent : string;
  model : string;
  temperature : num;
  max_tokens : num
}.

(** The states of [App] read or written by its handlers; [core] holds the
    part the response effect works on. *)
Record App : Type := mkApp {
  core : State;
  aiForm : AIFormData;
  wizardStep : WizardStep;
  isAIMode : bool;
  aiSearchParams : option PerplexitySearchInput
}.

Definition initialApp : App :=
  mkApp initialState (mkAIFormData "" "" "") stepBrand false None.

Definition handleReset (app : App) : App :=
  {| core :=
       snd ((setParams initialParams ;;;
             setAnalysisComplete false ;;;
             setInsights [] ;;;
             setRecommendedBudget JNull ;;;
             setBudgetReasoning (JStr "") ;;;
             setParamView manual) (core app));
     aiForm := mkAIFormData "" "" "";
     wizardStep := stepBrand;
     isAIMode := isAIMode app;
     aiSearchParams := aiSearchParams app |}.

Definition handleContinueToBrand (app : App) : App :=
  if negb (str_falsy (brandName (aiForm app))) && negb (str_falsy (budget (aiForm app)))
  then mkApp (core app) (aiForm app) stepParams (isAIMode app) (aiSearchParams app)
  else app.

(** [disabled] of the buttons that leave the first step. *)
Definition continueDisabled (app : App) : bool :=
  str_falsy (brandName (aiForm app)) || str_falsy (budget (aiForm app)).

(** The goal as [userContent] names it. *)
Definition goalLabel (goal : string) : string :=
  if String.eqb goal "awareness" then "Узнаваемость"
  else if String.eqb goal "consideration" then "Рассмотрение"
  else if String.eqb goal "conversion" then "Конверсия"
  else "Удержание".

Definition userContentOf (form : AIFormData) : string :=
  "Проанализируй этот бренд на российском рынке:
Название бренда: " ++ brandName form ++ "
Бюджет: " ++ budget form ++ " RUB
Цель кампании: " ++ goalLabel (formCampaignGoal form) ++ "

Предоставь детальный анализ с инсайтами и источниками для каждого параметра НА РУССКОМ ЯЗЫКЕ.".

Section Analyze.

(** The fixed prompt text [systemContent] of [handleAIAnalyze]. *)
Variable systemPrompt : string.

Definition handleAIAnalyze (app : App) : App :=
  if str_falsy (brandName (aiForm app)) || str_falsy (budget (aiForm app))
     || str_falsy (formCampaignGoal (aiForm app))
  then app
  else
    {| core :=
         snd ((setAIErrorMessage (JStr "") ;;;
               setAnalysisComplete false ;;;
               setAnalysisComplete false) (core app));
       aiForm := aiForm app;
       wizardStep := wizardStep app;
       isAIMode := isAIMode app;
       aiSearchParams :=
         Some {| systemContent := systemPrompt;
                 userContent := userContentOf (aiForm app);
                 model := "sonar-pro";
                 temperature := 0.7;
                 max_tokens := 3000 |} |}.

End Analyze.

(** [disabled] of the button that starts the analysis. *)
Definition analyzeDisabled (app : App) (isAILoading : bool) : bool :=
  str_falsy (brandName (aiForm app)) || str_falsy (budget (aiForm app))
  || str_falsy (formCampaignGoal (aiForm app)) || isAILoading.

(** [enabled: enabled && !!params] of [usePerplexitySearch]; [None] is an
    [undefined] argument. *)
Definition queryEnabled (params : option PerplexitySearchInput) (enabled : bool) : bool :=
  enabled && match params with Some _ => true | None => false end.

(** The hook as [App] calls it:
    [usePerplexitySearch(aiSearchParams ?? undefined, aiSearchParams !== null)]. *)
Definition searchEnabled (app : App) : bool :=
  queryEnabled (aiSearchParams app)
    (match aiSearchParams app with Some _ => true | None => false end).

(** [disabled] of the tab with the AI recommendations. *)
Definition aiTabDisabled (app : App) : bool :=
  negb (isAIMode app) || negb (analysisComplete (core app)).

(** The key of [insights] that the card of a slider reads. *)
Definition insightKey (key : SliderKey) : string :=
  match key with
  | keyBrandAwareness => "brand_awareness"
  | keyMarketSaturation => "market_saturation"
  | keyCampaignGoal => "campaign_goal"
  | keyTargetAudience => "target_audience"
  | keyProductComplexity => "product_complexity"
  | keyMessageComplexity => "message_complexity"
  end.

(** [analysisComplete && !aiErrorMessage && Object.keys(insights).length > 0]:
    the test that guards the list of insight cards inside the AI tab. *)
Definition insightsShown (st : State) : bool :=
  analysisComplete st && negb (truthy_val (aiErrorMessage st))
  && (0 <? length (insights st))%nat.

(** The insight a card shows; [None] when the card is skipped. *)
Definition insightCard (st : State) (key : SliderKey) : option AIInsight :=
  insightOf (insightKey key) (insights st).

(** [v !== null] *)
Definition not_null (v : jsval) : bool :=
  match v with
  | JNull => false
  | _ => true
  end.

(** [recommendedBudget !== null && budgetReasoning]: the test of the banner
    with the recommended budget. *)
Definition budgetBannerTest (st : State) : bool :=
  not_null (recommendedBudget st) && truthy_val (budgetReasoning st).

(** [wizardStep === "results" && (recommendedBudget !== null &&
    budgetReasoning && ...)]: the banner is rendered. *)
Definition budgetBannerShown (app : App) : bool :=
  match wizardStep app with
  | stepResults => budgetBannerTest (core app)
  | _ => false
  end.

(** ** Saving a calculation *)

Module CalculationHistory.

Inductive CalculationHistoryMode : Type := AI | Manual.

(** The row passed to [insertCalculationHistory]; [None] is [null]. *)
Record Row : Type := mkRow {
  id : string;
  data_creator : string;
  data_updater : string;
  create_time : string;
  update_time : string;
  calculation_time : string;
  mode : CalculationHistoryMode;
  brand_name : option string;
  budget : option num;
  campaign_goal : option string;
  brand_awareness : num;
  market_saturation : num;
  campaign_goal_param : num;
  target_audience : num;
  product_complexity : num;
  message_complexity : num;
  calculated_frequency : num
}.

End CalculationHistory.

Section SaveCalculation.

Variable parseFloat : string -> num.

(** The rows that one run of the saving effect passes to
    [insertCalculationHistory].  [authenticated] is what [isAuthenticated()]
    resolves to, or the message it (or the import) fails with; [now] is
    [new Date().toISOString()].  A failure is caught and only logged. *)
Definition saveCalculation (app : App) (authenticated : string + bool)
    (now : string) : list CalculationHistory.Row :=
  match wizardStep app with
  | stepResults =>
      match authenticated with
      | inr true =>
          [ {| CalculationHistory.id := "";
               CalculationHistory.data_creator := "";
               CalculationHistory.data_updater := "";
               CalculationHistory.create_time := "";
               CalculationHistory.update_time := "";
               CalculationHistory.calculation_time := now;
               CalculationHistory.mode :=
                 if isAIMode app then CalculationHistory.AI
                 else CalculationHistory.Manual;
               CalculationHistory.brand_name :=
                 if isAIMode app then Some (brandName (aiForm app)) else None;
               CalculationHistory.budget :=
                 if isAIMode app && negb (str_falsy (budget (aiForm app)))
                 then Some (parseFloat (budget (aiForm app))) else None;
               CalculationHistory.campaign_goal :=
                 if isAIMode app then Some (formCampaignGoal (aiForm app)) else None;
               CalculationHistory.brand_awareness := brandAwareness (params (core app));
               CalculationHistory.market_saturation := marketSaturation (params (core app));
               CalculationHistory.campaign_goal_param := campaignGoal (params (core app));
               CalculationHistory.target_audience := targetAudience (params (core app));
               CalculationHistory.product_complexity := productComplexity (params (core app));
               CalculationHistory.message_complexity := messageComplexity (params (core app));
               CalculationHistory.calculated_frequency := frequency (params (core app)) |} ]
      | inr false => []
      | inl _ => []
      end
  | _ => []
  end.

End SaveCalculation.

(** ** The query of the search hook *)

(** [v[0]] *)
Definition index0 (v : jsval) : option jsval :=
  match v with
  | JArr (x :: _) => Some x
  | JObj fields => lookup "0" fields
  | JStr (String c _) => Some (JStr (String c ""))
  | _ => None
  end.

(** [entry?.[0]] *)
Definition optIndex0 (entry : option jsval) : option jsval :=
  match entry with
  | None | Some JNull => None
  | Some e => index0 e
  end.

Section QueryFn.

Variable JSON_parse : string -> jsval + string.

(** The conversion to a string that [JSON.parse] applies to its argument. *)
Variable ToString : jsval -> string.

(** The message of the TypeError thrown when a property of [null] is read. *)
Variable null_TypeError : string.

(** [queryFn]; [inl] is the message of the error the promise is rejected
    with.  [callMCPTool] gives the value the tool call resolves to, or the
    message it is rejected with. *)
Definition queryFn (params : option PerplexitySearchInput)
    (callMCPTool : PerplexitySearchInput -> string + jsval) : string + jsval :=
  match params with
  | None => inl "Parameters are required for Perplexity AI search"
  | Some p =>
      match callMCPTool p with
      | inl rejected => inl rejected
      | inr JNull => inl null_TypeError
      | inr mcpResponse =>
          match optGet (optIndex0 (get mcpResponse "content")) "text" with
          | Some text =>
              if truthy_val text then
                match JSON_parse (match text with JStr s => s | _ => ToString text end) with
                | inl toolData => inr toolData
                | inr message => inl ("Failed to parse MCP response JSON: " ++ message)
                end
              else inl "Invalid MCP response format: missing content[0].text"
          | None => inl "Invalid MCP response format: missing content[0].text"
          end
      end
  end.

End QueryFn.

(** ** Effects that treat every state alike *)

(** The extraction does the same thing from every state: it gives a value,
    throws, or reports a message and returns. *)
Inductive uniformly (f : Eff jsval) : Prop :=
| un_value v : (forall st, f st = (Val v, st)) -> uniformly f
| un_thrown message : (forall st, f st = (Threw message, st)) -> uniformly f
| un_reported msg :
    truthy_val msg = true ->
    (forall st, f st = (Returned, snd (setAIErrorMessage msg st))) ->
    uniformly f.

(** The sliders of [p] are reals and those of [q] are reals no smaller. *)
Definition slidersLe (p q : SliderParams) : Prop :=
  Forall2 (fun v w => exists a b : R, v = Fin a /\ w = Fin b /\ a <= b)
    (Object_values p) (Object_values q).

(** * Properties *)

(** ** Arithmetic on finite numbers *)

Lemma add_Fin (a b : R) : (Fin a + Fin b)%num = Fin (a + b).
Proof. reflexivity. Qed.

Lemma sub_Fin (a b : R) : (Fin a - Fin b)%num = Fin (a - b).
Proof. reflexivity. Qed.

Lemma mul_Fin (a b : R) : (Fin a * Fin b)%num = Fin (a * b).
Proof. reflexivity. Qed.

Lemma div_Fin (a b : R) : b <> 0 -> (Fin a / Fin b)%num = Fin (a / b).
Proof.
  intros Hb. unfold div. destruct (Req_dec_T b 0) as [E | _]; [contradiction | reflexivity].
Qed.

Lemma Math_min_Fin (a b : R) : Math_min (Fin a) (Fin b) = Fin (Rmin a b).
Proof. reflexivity. Qed.

Lemma Math_max_Fin (a b : R) : Math_max (Fin a) (Fin b) = Fin (Rmax a b).
Proof. reflexivity. Qed.

Lemma Math_sqrt_Fin (a : R) : 0 <= a -> Math_sqrt (Fin a) = Fin (sqrt a).
Proof.
  intros Ha. unfold Math_sqrt. destruct (Rlt_dec a 0) as [L | _]; [lra | reflexivity].
Qed.

Lemma Math_sqrt_negative (a : R) : a < 0 -> Math_sqrt (Fin a) = NaN.
Proof.
  intros Ha. unfold Math_sqrt. destruct (Rlt_dec a 0) as [_ | L]; [reflexivity | lra].
Qed.

Lemma Math_log10_Fin (a : R) : 0 < a -> Math_log10 (Fin a) = Fin (ln a / ln 10).
Proof.
  intros Ha. unfold Math_log10.
  destruct (Rlt_dec a 0) as [L | _]; [lra |].
  destruct (Req_dec_T a 0) as [E | _]; [lra | reflexivity].
Qed.

Lemma strict_eq_Fin_false (a b : R) : a <> b -> (Fin a === Fin b)%num = false.
Proof.
  intros H. unfold strict_eq. destruct (Req_dec_T a b); [contradiction | reflexivity].
Qed.

Lemma strict_eq_Fin_true (a : R) : (Fin a === Fin a)%num = true.
Proof.
  unfold strict_eq. destruct (Req_dec_T a a); [reflexivity | contradiction].
Qed.

Lemma strict_eq_true_iff (x : num) (b : R) : (x === Fin b)%num = true <-> x = Fin b.
Proof.
  split.
  - destruct x as [| | | a]; simpl; try discriminate.
    destruct (Req_dec_T a b); [now subst | discriminate].
  - intros ->. apply strict_eq_Fin_true.
Qed.

Lemma Rmax_Rmin_bounds (lo hi x : R) :
  lo <= hi -> lo <= Rmax lo (Rmin hi x) <= hi.
Proof.
  intros H. unfold Rmax, Rmin.
  destruct (Rle_dec hi x); destruct (Rle_dec lo _); lra.
Qed.

Lemma Rmax_Rmin_inside (lo hi x : R) :
  lo <= x <= hi -> Rmax lo (Rmin hi x) = x.
Proof.
  intros H. unfold Rmax, Rmin.
  destruct (Rle_dec hi x); destruct (Rle_dec lo _); lra.
Qed.

Lemma Rmax_Rmin_below (lo hi x : R) :
  lo <= hi -> x <= lo -> Rmax lo (Rmin hi x) = lo.
Proof.
  intros H Hx. unfold Rmax, Rmin.
  destruct (Rle_dec hi x); destruct (Rle_dec lo _); lra.
Qed.

Lemma Rmax_Rmin_above (lo hi x : R) :
  lo <= hi -> hi <= x -> Rmax lo (Rmin hi x) = hi.
Proof.
  intros H Hx. unfold Rmax, Rmin.
  destruct (Rle_dec hi x); destruct (Rle_dec lo _); lra.
Qed.

Create Rewrite HintDb fin.
#[local] Hint Rewrite add_Fin sub_Fin mul_Fin Math_min_Fin Math_max_Fin : fin.

(** ** Frequency *)

Lemma frequency_unfold (p : SliderParams) :
  frequency p =
  Math_max 1.0 (Math_min 15.0
    (1.0 + (0 + brandAwareness p + marketSaturation p + campaignGoal p
            + targetAudience p + productComplexity p + messageComplexity p))%num).
Proof. reflexivity. Qed.

Lemma frequency_real (a b c d e f : R) :
  frequency (mkSliderParams a b c d e f)
  = Fin (Rmax 1 (Rmin 15 (1 + (0 + a + b + c + d + e + f)))).
Proof.
  rewrite frequency_unfold. cbn [brandAwareness marketSaturation campaignGoal
    targetAudience productComplexity messageComplexity].
  autorewrite with fin.
  replace 1.0 with 1 by lra. replace 15.0 with 15 by lra. reflexivity.
Qed.

Lemma realValued_inv (p : SliderParams) :
  realValued p ->
  exists a b c d e f : R, p = mkSliderParams a b c d e f.
Proof.
  destruct p as [a b c d e f]. unfold realValued, Object_values; simpl.
  intros H.
  repeat match goal with
         | H : Forall _ (_ :: _) |- _ => inversion H; clear H; subst
         end.
  repeat match goal with
         | H : finite _ |- _ => destruct H as [? ->]
         end.
  repeat eexists.
Qed.

Lemma inSliderRange_inv (p : SliderParams) :
  inSliderRange p ->
  exists a b c d e f : R,
    p = mkSliderParams a b c d e f /\
    -2 <= a <= 2 /\ -2 <= b <= 2 /\ -2 <= c <= 2 /\
    -2 <= d <= 2 /\ -2 <= e <= 2 /\ -2 <= f <= 2.
Proof.
  destruct p as [a b c d e f]. unfold inSliderRange, Object_values; simpl.
  intros H.
  repeat match goal with
         | H : Forall _ (_ :: _) |- _ => inversion H; clear H; subst
         end.
  repeat match goal with
         | H : exists _, _ /\ _ |- _ => destruct H as [? [-> ?]]
         end.
  do 6 eexists. split; [reflexivity |]. tauto.
Qed.

Lemma frequency_lower_bound (p : SliderParams) :
  realValued p -> exists x : R, frequency p = Fin x /\ 1 <= x <= 15.
Proof.
  intros H. destruct (realValued_inv p H) as (a & b & c & d & e & f & ->).
  rewrite frequency_real. eexists. split; [reflexivity |].
  apply Rmax_Rmin_bounds. lra.
Qed.

(** The result of [Math.max(1.0, _)] is never the number 0. *)
Lemma Math_max_one_not_zero (x : num) : (Math_max 1.0 x === 0)%num = false.
Proof.
  destruct x as [| | | r]; try reflexivity.
  - change (Math_max 1.0 NInf) with (Fin 1.0). apply strict_eq_Fin_false. lra.
  - rewrite Math_max_Fin. apply strict_eq_Fin_false.
    unfold Rmax. destruct (Rle_dec 1.0 r); lra.
Qed.

Lemma frequency_not_zero (p : SliderParams) : (frequency p === 0)%num = false.
Proof. unfold frequency. apply Math_max_one_not_zero. Qed.

Lemma sliderSum_real (a b c d e f : R) :
  sliderSum (mkSliderParams a b c d e f) = Fin (0 + a + b + c + d + e + f).
Proof. reflexivity. Qed.

Lemma inSliderRange_initial : inSliderRange initialParams.
Proof.
  unfold inSliderRange, initialParams, Object_values; simpl.
  repeat constructor; exists 0; (split; [reflexivity | lra]).
Qed.

(** C3: the frequency is the sum of the six values plus one, clamped into
    [1, 15].  For sliders within [-2, 2] the sum lies in [-12, 12] and the
    frequency in [1, 15]; all sliders at 0 give 1, all at 2 give 13, all at
    -2 give 1. *)
Theorem C3_frequency_clamped_sum :
  (forall p, frequency p = Math_max 1.0 (Math_min 15.0 (1.0 + sliderSum p)%num)) /\
  (forall p, inSliderRange p ->
     exists s x : R,
       sliderSum p = Fin s /\ -12 <= s <= 12 /\
       frequency p = Fin x /\ x = Rmax 1 (Rmin 15 (1 + s)) /\ 1 <= x <= 15) /\
  frequency (mkSliderParams 0 0 0 0 0 0) = Fin 1 /\
  frequency (mkSliderParams 2 2 2 2 2 2) = Fin 13 /\
  frequency (mkSliderParams (-2) (-2) (-2) (-2) (-2) (-2)) = Fin 1.
Proof.
  split; [reflexivity |]. split; [| repeat split].
  - intros p H.
    destruct (inSliderRange_inv p H)
      as (a & b & c & d & e & f & -> & Ha & Hb & Hc & Hd & He & Hf).
    exists (0 + a + b + c + d + e + f), (Rmax 1 (Rmin 15 (1 + (0 + a + b + c + d + e + f)))).
    split; [apply sliderSum_real |]. split; [lra |].
    split; [apply frequency_real |]. split; [reflexivity |].
    apply Rmax_Rmin_bounds; lra.
  - rewrite frequency_real. f_equal. rewrite Rmax_Rmin_inside by lra. lra.
  - rewrite frequency_real. f_equal. rewrite Rmax_Rmin_inside by lra. lra.
  - rewrite frequency_real. f_equal. apply Rmax_Rmin_below; lra.
Qed.

Lemma C3_frequency_clamped_sum_witness :
  exists s x : R,
    sliderSum initialParams = Fin s /\ -12 <= s <= 12 /\
    frequency initialParams = Fin x /\ x = Rmax 1 (Rmin 15 (1 + s)) /\ 1 <= x <= 15.
Proof.
  apply (proj1 (proj2 C3_frequency_clamped_sum) initialParams).
  unfold inSliderRange, initialParams, Object_values; simpl.
  repeat constructor; exists 0; (split; [reflexivity | lra]).
Defined.

(** Coverage once the guard is passed. *)
Lemma calculateCoverage_formula parseFloat aiForm (freq ta : num) :
  str_falsy (budget aiForm) = false ->
  (freq === 0)%num = false ->
  (ta === 0)%num = false ->
  calculateCoverage parseFloat aiForm freq ta
  = (((parseFloat (budget aiForm) / 400 * 1000) / freq / ta) * 100 * 0.08)%num.
Proof.
  intros Hb Hf Ht. unfold calculateCoverage. rewrite Hb, Hf, Ht. reflexivity.
Qed.

(** C10: for every real-valued assignment of the six sliders the frequency
    is a real that is at least 1; the frequency is never the number 0, so
    the test [frequency === 0] of the coverage never fires, the guard is
    decided by the budget and the capacity alone, and the divisor of the
    reach is not zero. *)
Theorem C10_frequency_at_least_one :
  (forall a b c d e f : R,
     exists x : R, frequency (mkSliderParams a b c d e f) = Fin x /\ 1 <= x) /\
  (forall p, (frequency p === 0)%num = false) /\
  (forall p, frequency p <> Fin 0) /\
  (forall parseFloat aiForm p ta,
     calculateCoverage parseFloat aiForm (frequency p) ta
     = if str_falsy (budget aiForm) || (ta === 0)%num then Fin 0
       else (((parseFloat (budget aiForm) / 400 * 1000) / frequency p / ta)
             * 100 * 0.08)%num).
Proof.
  repeat split.
  - intros a b c d e f. rewrite frequency_real. eexists. split; [reflexivity |].
    apply Rmax_Rmin_bounds; lra.
  - apply frequency_not_zero.
  - intros p H. pose proof (frequency_not_zero p) as N.
    rewrite H, strict_eq_Fin_true in N. discriminate.
  - intros parseFloat aiForm p ta. unfold calculateCoverage.
    rewrite frequency_not_zero, orb_false_r. reflexivity.
Qed.

(** ** The example host on the numerals used below *)

Lemma parseFloat_plain_eq (s : string) (negative : bool) (mantissa : Z) (decimals : nat) :
  parseDecimal s = Some (negative, mantissa, decimals) ->
  parseFloat_plain s
  = Fin ((if negative then -1 else 1) * IZR mantissa / IZR (10 ^ Z.of_nat decimals)).
Proof. intros H. unfold parseFloat_plain. rewrite H. reflexivity. Qed.

Lemma parseFloat_plain_million : parseFloat_plain "1000000" = Fin 1000000.
Proof.
  rewrite (parseFloat_plain_eq "1000000" false 1000000 0) by reflexivity.
  f_equal. simpl (10 ^ Z.of_nat 0)%Z. lra.
Qed.

Lemma parseFloat_plain_minus_five : parseFloat_plain "-5" = Fin (-5).
Proof.
  rewrite (parseFloat_plain_eq "-5" true 5 0) by reflexivity.
  f_equal. simpl (10 ^ Z.of_nat 0)%Z. lra.
Qed.

Lemma parseFloat_plain_zero : parseFloat_plain "0" = Fin 0.
Proof.
  rewrite (parseFloat_plain_eq "0" false 0 0) by reflexivity.
  f_equal. simpl (10 ^ Z.of_nat 0)%Z. lra.
Qed.

(** ** TOM / uplift *)

Lemma str_falsy_false_iff (s : string) : str_falsy s = false <-> s <> "".
Proof. unfold str_falsy. apply String.eqb_neq. Qed.

Lemma str_falsy_true_iff (s : string) : str_falsy s = true <-> s = "".
Proof. unfold str_falsy. apply String.eqb_eq. Qed.

Lemma mul_NaN_r (x : num) : (x * NaN)%num = NaN.
Proof. destruct x; reflexivity. Qed.

Lemma getGoalMultiplier_real (goal : string) :
  exists gm : R, getGoalMultiplier goal = Fin gm /\ 0.2 <= gm <= 1.
Proof.
  unfold getGoalMultiplier.
  repeat match goal with
         | |- context [String.eqb ?a ?b] => destruct (String.eqb a b)
         end;
    eexists; (split; [reflexivity | lra]).
Qed.

Lemma calculateTOM_guarded parseFloat aiForm (freq : num) kpi :
  budget aiForm = "" \/ formCampaignGoal aiForm = "" ->
  calculateTOM parseFloat aiForm freq kpi = Fin 0.
Proof.
  intros [H | H]; unfold calculateTOM; rewrite H; simpl;
    [reflexivity | rewrite orb_true_r; reflexivity].
Qed.

Lemma calculateTOM_formula parseFloat aiForm (freq : num) kpi :
  budget aiForm <> "" -> formCampaignGoal aiForm <> "" ->
  calculateTOM parseFloat aiForm freq kpi
  = (getBaseTOM kpi (formCampaignGoal aiForm)
     * (1 + (freq - 1.0) * 0.08)
     * Math_sqrt (parseFloat (budget aiForm) / 500000)
     * getGoalMultiplier (formCampaignGoal aiForm) * 100 * 3.5)%num.
Proof.
  intros Hb Hg. unfold calculateTOM.
  apply str_falsy_false_iff in Hb. apply str_falsy_false_iff in Hg.
  rewrite Hb, Hg. reflexivity.
Qed.

Lemma calculateTOM_negative_budget parseFloat aiForm (freq : num) kpi (b : R) :
  budget aiForm <> "" -> formCampaignGoal aiForm <> "" ->
  parseFloat (budget aiForm) = Fin b -> b < 0 ->
  calculateTOM parseFloat aiForm freq kpi = NaN.
Proof.
  intros Hb Hg Hp Hneg.
  rewrite calculateTOM_formula by assumption.
  rewrite Hp, div_Fin by lra.
  rewrite Math_sqrt_negative by (unfold Rdiv; nra).
  rewrite mul_NaN_r. reflexivity.
Qed.




(** ** Coverage *)

Lemma strict_eq_false_iff (x : num) (b : R) : (x === Fin b)%num = false <-> x <> Fin b.
Proof.
  rewrite <- (strict_eq_true_iff x b). destruct (x === Fin b)%num; split; congruence.
Qed.

Lemma calculateCoverage_real parseFloat aiForm (b f t : R) :
  budget aiForm <> "" -> f <> 0 -> t <> 0 ->
  parseFloat (budget aiForm) = Fin b ->
  calculateCoverage parseFloat aiForm (Fin f) (Fin t)
  = Fin (b / 400 * 1000 / f / t * 100 * 0.08).
Proof.
  intros Hb Hf Ht Hp.
  rewrite calculateCoverage_formula;
    [| now apply str_falsy_false_iff | now apply strict_eq_Fin_false
     | now apply strict_eq_Fin_false ].
  rewrite Hp. rewrite (div_Fin b 400) by lra. rewrite mul_Fin.
  rewrite (div_Fin _ f) by assumption. rewrite (div_Fin _ t) by assumption.
  rewrite !mul_Fin. reflexivity.
Qed.

(** C5 (as amended): the coverage is 0 for an empty budget and for a
    capacity of 0, and for a budget of 0 when the sliders and the capacity
    are reals; it is then neither NaN nor infinite.  Otherwise it is
    ((budget / 400 * 1000) / frequency / ta_capacity_rf) * 100 * 0.08,
    which is NaN, whatever the budget, when the frequency is NaN (a slider
    that is NaN) or the capacity is NaN. *)
Theorem C5_coverage_guarded :
  forall parseFloat aiForm (p : SliderParams) (ta : num),
    (budget aiForm = "" ->
       calculateCoverage parseFloat aiForm (frequency p) ta = Fin 0) /\
    (forall t : R,
       realValued p -> parseFloat (budget aiForm) = Fin 0 -> ta = Fin t ->
       calculateCoverage parseFloat aiForm (frequency p) ta = Fin 0) /\
    (ta = Fin 0 ->
       calculateCoverage parseFloat aiForm (frequency p) ta = Fin 0) /\
    (budget aiForm <> "" -> ta <> Fin 0 ->
       calculateCoverage parseFloat aiForm (frequency p) ta
       = (((parseFloat (budget aiForm) / 400 * 1000) / frequency p / ta)
          * 100 * 0.08)%num) /\
    (forall b t : R,
       realValued p -> budget aiForm <> "" ->
       parseFloat (budget aiForm) = Fin b -> ta = Fin t -> t <> 0 ->
       exists f : R,
         frequency p = Fin f /\ 1 <= f <= 15 /\
         calculateCoverage parseFloat aiForm (frequency p) ta
         = Fin (b / 400 * 1000 / f / t * 100 * 0.08)) /\
    (budget aiForm <> "" -> ta <> Fin 0 -> frequency p = NaN ->
       calculateCoverage parseFloat aiForm (frequency p) ta = NaN) /\
    (budget aiForm <> "" -> ta = NaN ->
       calculateCoverage parseFloat aiForm (frequency p) ta = NaN).
Proof.
  intros parseFloat aiForm p ta.
  assert (Formula :
            budget aiForm <> "" -> ta <> Fin 0 ->
            calculateCoverage parseFloat aiForm (frequency p) ta
            = (((parseFloat (budget aiForm) / 400 * 1000) / frequency p / ta)
               * 100 * 0.08)%num).
  { intros Hb Ht. apply calculateCoverage_formula.
    + now apply str_falsy_false_iff.
    + apply frequency_not_zero.
    + now apply strict_eq_false_iff. }
  assert (Real : forall b t : R,
             realValued p -> budget aiForm <> "" ->
             parseFloat (budget aiForm) = Fin b -> ta = Fin t -> t <> 0 ->
             exists f : R,
               frequency p = Fin f /\ 1 <= f <= 15 /\
               calculateCoverage parseFloat aiForm (frequency p) ta
               = Fin (b / 400 * 1000 / f / t * 100 * 0.08)).
  { intros b t Hp Hb Hparse -> Ht.
    destruct (frequency_lower_bound p Hp) as (f & Ef & Hf).
    exists f. rewrite Ef. split; [reflexivity |]. split; [exact Hf |].
    apply calculateCoverage_real; trivial; lra. }
  split; [| split; [| split; [| split; [| split; [| split]]]]].
  - intros H. unfold calculateCoverage. rewrite H. reflexivity.
  - intros t Hp Hparse ->.
    destruct (String.eqb_spec (budget aiForm) "") as [E | N].
    { unfold calculateCoverage, str_falsy. rewrite E. reflexivity. }
    destruct (Req_dec_T t 0) as [-> | Ht].
    { unfold calculateCoverage. rewrite strict_eq_Fin_true, !orb_true_r. reflexivity. }
    destruct (Real 0 t Hp N Hparse eq_refl Ht) as (f & _ & Hf & ->).
    f_equal. unfold Rdiv. rewrite !Rmult_0_l. reflexivity.
  - intros ->. unfold calculateCoverage.
    rewrite strict_eq_Fin_true, !orb_true_r. reflexivity.
  - exact Formula.
  - exact Real.
  - intros Hb Ht Hf. rewrite Formula by assumption. rewrite Hf.
    destruct (parseFloat (budget aiForm) / 400 * 1000)%num; reflexivity.
  - intros Hb ->. rewrite Formula by (assumption || discriminate).
    destruct (parseFloat (budget aiForm) / 400 * 1000 / frequency p)%num;
      reflexivity.
Qed.

Lemma realValued_initial : realValued initialParams.
Proof.
  unfold realValued, initialParams, Object_values; simpl.
  repeat constructor; exists 0; reflexivity.
Qed.

Lemma C5_coverage_guarded_witness :
  calculateCoverage parseFloat_plain (mkAIFormData "Brand" "0" "awareness")
    (frequency initialParams) (Fin 1000000) = Fin 0
  /\
  exists f : R,
    frequency initialParams = Fin f /\ 1 <= f <= 15 /\
    calculateCoverage parseFloat_plain (mkAIFormData "Brand" "1000000" "awareness")
      (frequency initialParams) (Fin 1000000)
    = Fin (1000000 / 400 * 1000 / f / 1000000 * 100 * 0.08).
Proof.
  split.
  - apply (proj1 (proj2 (C5_coverage_guarded parseFloat_plain
             (mkAIFormData "Brand" "0" "awareness") initialParams (Fin 1000000)))
             1000000).
    + unfold realValued, initialParams, Object_values; simpl.
      repeat constructor; exists 0; reflexivity.
    + apply parseFloat_plain_zero.
    + reflexivity.
  - apply (proj1 (proj2 (proj2 (proj2 (proj2 (C5_coverage_guarded parseFloat_plain
             (mkAIFormData "Brand" "1000000" "awareness") initialParams
             (Fin 1000000))))))).
    + unfold realValued, initialParams, Object_values; simpl.
      repeat constructor; exists 0; reflexivity.
    + discriminate.
    + apply parseFloat_plain_million.
    + reflexivity.
    + lra.
Defined.

(** ** LTV growth *)

Lemma truthy_Fin_nonzero (r : R) : r <> 0 -> truthy (Fin r) = true.
Proof. intros H. unfold truthy. destruct (Req_dec_T r 0); [contradiction | reflexivity]. Qed.

Lemma ltvGoalMultiplier_table inheritedKey :
  ltvGoalMultiplier inheritedKey "awareness" = Fin 0.3 /\
  ltvGoalMultiplier inheritedKey "consideration" = Fin 0.5 /\
  ltvGoalMultiplier inheritedKey "conversion" = Fin 0.8 /\
  ltvGoalMultiplier inheritedKey "retention" = Fin 1.0.
Proof.
  unfold ltvGoalMultiplier.
  change (goalMultipliers "awareness") with (Some (Fin 0.3)).
  change (goalMultipliers "consideration") with (Some (Fin 0.5)).
  change (goalMultipliers "conversion") with (Some (Fin 0.8)).
  change (goalMultipliers "retention") with (Some (Fin 1.0)).
  cbv beta iota.
  rewrite !truthy_Fin_nonzero by lra. repeat split.
Qed.

Lemma ltvGoalMultiplier_default inheritedKey (g : string) :
  g <> "awareness" -> g <> "consideration" -> g <> "conversion" -> g <> "retention" ->
  inheritedKey g = false ->
  ltvGoalMultiplier inheritedKey g = Fin 0.5.
Proof.
  intros H1 H2 H3 H4 Hi. unfold ltvGoalMultiplier, goalMultipliers.
  apply String.eqb_neq in H1, H2, H3, H4. rewrite H1, H2, H3, H4, Hi. reflexivity.
Qed.

Lemma ltvGoalMultiplier_real inheritedKey (g : string) :
  inheritedKey g = false ->
  exists gm : R, ltvGoalMultiplier inheritedKey g = Fin gm /\ 0.3 <= gm <= 1.
Proof.
  intros Hi.
  destruct (ltvGoalMultiplier_table inheritedKey) as (T1 & T2 & T3 & T4).
  destruct (String.eqb_spec g "awareness") as [-> | N1].
  { eexists; split; [exact T1 | lra]. }
  destruct (String.eqb_spec g "consideration") as [-> | N2].
  { eexists; split; [exact T2 | lra]. }
  destruct (String.eqb_spec g "conversion") as [-> | N3].
  { eexists; split; [exact T3 | lra]. }
  destruct (String.eqb_spec g "retention") as [-> | N4].
  { eexists; split; [exact T4 | lra]. }
  eexists; split; [now apply ltvGoalMultiplier_default | lra].
Qed.

Lemma calculateLTVGrowth_formula parseFloat inheritedKey aiForm (freq : num) params kpi :
  budget aiForm <> "" -> formCampaignGoal aiForm <> "" ->
  calculateLTVGrowth parseFloat inheritedKey aiForm freq params kpi
  = (retention_ltv_base kpi
     * ltvGoalMultiplier inheritedKey (formCampaignGoal aiForm)
     * (1 + (freq - 1.0) * 0.05)
     * (1 - marketSaturation params * 0.1)
     * Math_min (1.0 + Math_log10 (parseFloat (budget aiForm) / 1000000)) 2.0
     * 100 * 7)%num.
Proof.
  intros Hb Hg. unfold calculateLTVGrowth.
  apply str_falsy_false_iff in Hb. apply str_falsy_false_iff in Hg.
  rewrite Hb, Hg. reflexivity.
Qed.

(** C8: with a budget and a goal set, the LTV growth is
    retention_ltv_base * goalMultiplier * freqMultiplier
    * competitionCorrection * budgetQualityMultiplier * 100 * 7, the goal
    multiplier being 0.3, 0.5, 0.8, 1.0 for the four goals and 0.5 for any
    other goal that is not a member inherited from Object.prototype, the
    frequency multiplier 1 + (frequency - 1.0) * 0.05, the competition
    correction 1 - marketSaturation * 0.1 and the budget quality multiplier
    min(1 + log10(budget / 1000000), 2.0); for a positive budget and real
    inputs this is the product of reals.  With an empty budget or an unset
    goal the result is 0. *)
Theorem C8_calculateLTVGrowth_formula :
  forall parseFloat inheritedKey aiForm (freq : num) params kpi,
    let goal := formCampaignGoal aiForm in
    (budget aiForm = "" \/ goal = "" ->
       calculateLTVGrowth parseFloat inheritedKey aiForm freq params kpi = Fin 0) /\
    (budget aiForm <> "" -> goal <> "" ->
       calculateLTVGrowth parseFloat inheritedKey aiForm freq params kpi
       = (retention_ltv_base kpi
          * ltvGoalMultiplier inheritedKey goal
          * (1 + (freq - 1.0) * 0.05)
          * (1 - marketSaturation params * 0.1)
          * Math_min (1.0 + Math_log10 (parseFloat (budget aiForm) / 1000000)) 2.0
          * 100 * 7)%num) /\
    (ltvGoalMultiplier inheritedKey "awareness" = Fin 0.3 /\
     ltvGoalMultiplier inheritedKey "consideration" = Fin 0.5 /\
     ltvGoalMultiplier inheritedKey "conversion" = Fin 0.8 /\
     ltvGoalMultiplier inheritedKey "retention" = Fin 1.0 /\
     (forall g, g <> "awareness" -> g <> "consideration" -> g <> "conversion" ->
                g <> "retention" -> inheritedKey g = false ->
                ltvGoalMultiplier inheritedKey g = Fin 0.5)) /\
    (forall b f m base : R,
       budget aiForm <> "" -> goal <> "" -> inheritedKey goal = false ->
       parseFloat (budget aiForm) = Fin b -> 0 < b ->
       freq = Fin f -> marketSaturation params = Fin m ->
       retention_ltv_base kpi = Fin base ->
       exists gm : R,
         ltvGoalMultiplier inheritedKey goal = Fin gm /\
         calculateLTVGrowth parseFloat inheritedKey aiForm freq params kpi
         = Fin (base * gm * (1 + (f - 1.0) * 0.05) * (1 - m * 0.1)
                * Rmin (1.0 + ln (b / 1000000) / ln 10) 2.0 * 100 * 7)).
Proof.
  intros parseFloat inheritedKey aiForm freq params kpi goal. subst goal.
  split; [| split; [| split]].
  - intros [H | H]; unfold calculateLTVGrowth; rewrite H; simpl;
      [reflexivity | rewrite orb_true_r; reflexivity].
  - apply calculateLTVGrowth_formula.
  - destruct (ltvGoalMultiplier_table inheritedKey) as (T1 & T2 & T3 & T4).
    repeat split; trivial. apply ltvGoalMultiplier_default.
  - intros b f m base Hb Hg Hi Hp Hpos -> Hm Hbase.
    destruct (ltvGoalMultiplier_real inheritedKey (formCampaignGoal aiForm) Hi)
      as (gm & Egm & _).
    exists gm. split; [exact Egm |].
    rewrite calculateLTVGrowth_formula by assumption.
    rewrite Hp, Hm, Hbase, Egm.
    rewrite div_Fin by lra.
    rewrite Math_log10_Fin by (unfold Rdiv; apply Rmult_lt_0_compat; lra).
    autorewrite with fin. reflexivity.
Qed.

Lemma C8_calculateLTVGrowth_formula_witness :
  exists gm : R,
    ltvGoalMultiplier inheritedKey_none "retention" = Fin gm /\
    calculateLTVGrowth parseFloat_plain inheritedKey_none
      (mkAIFormData "Brand" "1000000" "retention") (Fin 1) initialParams
      initialKpiBenchmarks
    = Fin (0.04 * gm * (1 + (1 - 1.0) * 0.05) * (1 - 0 * 0.1)
           * Rmin (1.0 + ln (1000000 / 1000000) / ln 10) 2.0 * 100 * 7).
Proof.
  pose proof (C8_calculateLTVGrowth_formula parseFloat_plain inheritedKey_none
                (mkAIFormData "Brand" "1000000" "retention") (Fin 1) initialParams
                initialKpiBenchmarks) as H.
  cbv zeta in H. destruct H as (_ & _ & _ & H).
  apply H.
  - discriminate.
  - discriminate.
  - reflexivity.
  - apply parseFloat_plain_million.
  - lra.
  - reflexivity.
  - reflexivity.
  - reflexivity.
Defined.

(** ** End to end *)

Lemma sqrt_2_bounds : 1.4142 < sqrt 2 < 1.4143.
Proof.
  split.
  - rewrite <- (sqrt_square 1.4142) by lra. apply sqrt_lt_1; lra.
  - rewrite <- (sqrt_square 1.4143) by lra. apply sqrt_lt_1; lra.
Qed.

(** C9: budget 1000000, goal awareness, all sliders at 0, the default
    benchmarks and the default capacity: the frequency is 1.0, the TOM
    metric is 0.15 * 1.0 * sqrt(2.0) * 1.0 * 100 * 3.5, which is 74.25 to two
    decimals, and the coverage is 20.0. *)
Theorem C9_end_to_end :
  forall (parseFloat : string -> num) (name : string),
    parseFloat "1000000" = Fin 1000000 ->
    let aiForm := mkAIFormData name "1000000" "awareness" in
    let tom := 0.15 * 1.0 * sqrt 2.0 * 1.0 * 100 * 3.5 in
    frequency initialParams = Fin 1.0 /\
    calculateTOM parseFloat aiForm (frequency initialParams) initialKpiBenchmarks
    = Fin tom /\
    Rabs (tom - 74.25) < 0.005 /\
    calculateCoverage parseFloat aiForm (frequency initialParams) initialTaCapacityRF
    = Fin 20.0 /\
    20.0 = (1000000 / 400 * 1000) / 1.0 / 1000000 * 100 * 0.08.
Proof.
  intros parseFloat name Hp aiForm tom.
  assert (Ef : frequency initialParams = Fin 1.0).
  { unfold initialParams. rewrite frequency_real. f_equal.
    rewrite Rmax_Rmin_inside by lra. lra. }
  split; [exact Ef |]. rewrite Ef.
  split; [| split; [| split]].
  - rewrite calculateTOM_formula by discriminate.
    change (budget aiForm) with "1000000". rewrite Hp.
    change (getBaseTOM initialKpiBenchmarks (formCampaignGoal aiForm)) with (Fin 0.15).
    change (getGoalMultiplier (formCampaignGoal aiForm)) with (Fin 1.0).
    rewrite div_Fin by lra. rewrite Math_sqrt_Fin by lra.
    autorewrite with fin. f_equal. subst tom.
    replace (1000000 / 500000) with 2.0 by lra. lra.
  - subst tom. pose proof sqrt_2_bounds as [Lo Hi].
    replace 2.0 with 2 by lra.
    apply Rabs_def1; lra.
  - unfold initialTaCapacityRF.
    rewrite (calculateCoverage_real parseFloat aiForm 1000000 1.0 1000000);
      trivial; try lra; try discriminate.
    f_equal. lra.
  - lra.
Qed.

Lemma C9_end_to_end_witness :
  let aiForm := mkAIFormData "Brand" "1000000" "awareness" in
  let tom := 0.15 * 1.0 * sqrt 2.0 * 1.0 * 100 * 3.5 in
  frequency initialParams = Fin 1.0 /\
  calculateTOM parseFloat_plain aiForm (frequency initialParams) initialKpiBenchmarks
  = Fin tom /\
  Rabs (tom - 74.25) < 0.005 /\
  calculateCoverage parseFloat_plain aiForm (frequency initialParams) initialTaCapacityRF
  = Fin 20.0 /\
  20.0 = (1000000 / 400 * 1000) / 1.0 / 1000000 * 100 * 0.08.
Proof.
  apply (C9_end_to_end parseFloat_plain "Brand").
  apply parseFloat_plain_million.
Defined.

(** ** The response effect *)

Lemma clamp_real (r : R) : clamp (Fin r) = Fin (Rmax (-2) (Rmin 2 r)).
Proof.
  unfold clamp. rewrite Math_min_Fin, Math_max_Fin.
  replace (-2.0) with (-2) by lra. replace 2.0 with 2 by lra. reflexivity.
Qed.

Lemma sameButMessage_refl (st : State) : sameButMessage st st.
Proof. repeat split. Qed.

Lemma sameButMessage_set (msg : jsval) (st : State) :
  sameButMessage st (snd (setAIErrorMessage msg st)).
Proof. repeat split. Qed.

Ltac in_sixKeys := simpl; repeat (first [left; reflexivity | right]).

Ltac break_match :=
  match goal with
  | |- context [match ?x with _ => _ end] => destruct x eqn:?
  end.

Ltac uniform_leaf :=
  first
    [ solve [eapply un_value; intros; reflexivity]
    | solve [eapply un_thrown; intros; reflexivity]
    | solve [eapply un_reported; cycle 1; [intros; reflexivity | reflexivity]] ].

Ltac uniform_cases :=
  repeat first
    [ uniform_leaf
    | progress cbv beta iota delta [bind ret throw return_ parse in_ fromChoice extract]
    | break_match ].

Section ResponseEffectProperties.

Variable JSON_parse : string -> jsval + string.
Variable match_fenced : string -> option (string * string).
Variable match_braces : string -> option string.
Variable in_TypeError : string -> jsval -> string.
Variable StringToNumber : string -> num.
Variable ArrayToString : list jsval -> string + string.
Variable ToPrimitive_TypeError : jsval -> string.

Local Abbreviation fromChoice' :=
  (fromChoice JSON_parse match_fenced match_braces in_TypeError).
Local Abbreviation extract' :=
  (extract JSON_parse match_fenced match_braces in_TypeError).
Local Abbreviation ToNumber' :=
  (ToNumber StringToNumber ArrayToString ToPrimitive_TypeError).
Local Abbreviation paramValue' :=
  (paramValue StringToNumber ArrayToString ToPrimitive_TypeError).
Local Abbreviation newParams' :=
  (newParams StringToNumber ArrayToString ToPrimitive_TypeError).
Local Abbreviation commit' :=
  (commit StringToNumber ArrayToString ToPrimitive_TypeError).
Local Abbreviation tryBody' :=
  (tryBody JSON_parse match_fenced match_braces in_TypeError StringToNumber
     ArrayToString ToPrimitive_TypeError).
Local Abbreviation processAIResponse' :=
  (processAIResponse JSON_parse match_fenced match_braces in_TypeError
     StringToNumber ArrayToString ToPrimitive_TypeError).

Lemma parse_extracted (text : string) (st : State) :
  extracted st (parse JSON_parse text st).
Proof. unfold parse. destruct (JSON_parse text); constructor. Qed.

Lemma bind_in {B} (key : string) (v : jsval) (k : bool -> Eff B) (st : State) :
  bind (in_ in_TypeError key v) k st
  = match js_in key v with
    | Some b => k b st
    | None => (Threw (in_TypeError key v), st)
    end.
Proof. unfold bind, in_. destruct (js_in key v); reflexivity. Qed.

Lemma bind_set {B} (set : Eff unit) (k : Eff B) (st : State) :
  fst (set st) = Val tt -> bind set (fun _ => k) st = k (snd (set st)).
Proof. unfold bind. destruct (set st) as [[[] | | m] st']; simpl; intros H; now inversion H. Qed.

Ltac extracted_cases :=
  repeat first
    [ rewrite bind_in
    | apply parse_extracted
    | solve [constructor; reflexivity]
    | break_match ].

Lemma fromChoice_extracted (choice : jsval) (st : State) :
  extracted st (fromChoice' choice st).
Proof.
  unfold fromChoice, ret, throw. extracted_cases.
Qed.

Lemma extract_extracted (response : jsval) (st : State) :
  extracted st (extract' response st).
Proof.
  unfold extract, ret, return_.
  rewrite bind_in.
  destruct (js_in "choices" response) as [hasChoices |]; [| constructor].
  destruct (if hasChoices then get response "choices" else None) as [[| | | | [| choice rest] |] |];
    try apply fromChoice_extracted;
    extracted_cases.
Qed.

Lemma extract_uniformly (response : jsval) : uniformly (extract' response).
Proof. uniform_cases. Qed.

(** *** Order of the strategies *)

Lemma extract_choices (fields : list (string * jsval)) (choice : jsval)
    (rest : list jsval) (st : State) :
  lookup "choices" fields = Some (JArr (choice :: rest)) ->
  extract' (JObj fields) st = fromChoice' choice st.
Proof.
  intros H. unfold extract. rewrite bind_in. unfold js_in, get.
  rewrite H. reflexivity.
Qed.

Lemma extract_no_choices {B} (fields : list (string * jsval)) (st : State)
    (k1 : jsval -> Eff B) (k2 : Eff B) :
  (forall choice rest, lookup "choices" fields <> Some (JArr (choice :: rest))) ->
  match
    (if match lookup "choices" fields with Some _ => true | None => false end
     then lookup "choices" fields else None)
  with
  | Some (JArr (choice :: _)) => k1 choice
  | _ => k2
  end st = k2 st.
Proof.
  intros H. destruct (lookup "choices" fields) as [[| | | | [| choice rest] |] |];
    try reflexivity.
  now contradiction (H choice rest).
Qed.

Lemma extract_parameters (fields : list (string * jsval)) (q : jsval) (st : State) :
  (forall choice rest, lookup "choices" fields <> Some (JArr (choice :: rest))) ->
  lookup "parameters" fields = Some q ->
  extract' (JObj fields) st = (Val (JObj fields), st).
Proof.
  intros Hc Hp. unfold extract. rewrite bind_in. unfold js_in at 1, get.
  replace (match lookup "choices" fields with
           | Some _ => Some true
           | None => Some false
           end)
    with (Some (match lookup "choices" fields with Some _ => true | None => false end))
    by (destruct (lookup "choices" fields); reflexivity).
  rewrite extract_no_choices by assumption.
  rewrite bind_in. unfold js_in. rewrite Hp. reflexivity.
Qed.

Lemma extract_scan (fields : list (string * jsval)) (st : State) :
  (forall choice rest, lookup "choices" fields <> Some (JArr (choice :: rest))) ->
  lookup "parameters" fields = None ->
  extract' (JObj fields) st
  = match scanFields JSON_parse match_fenced match_braces (JObj fields) possibleFields with
    | Some v => (Val v, st)
    | None =>
        (Returned,
         snd (setAIErrorMessage
                (JStr "Не удалось извлечь данные ИИ-анализа из ответа") st))
    end.
Proof.
  intros Hc Hp. unfold extract. rewrite bind_in. unfold js_in at 1, get.
  replace (match lookup "choices" fields with
           | Some _ => Some true
           | None => Some false
           end)
    with (Some (match lookup "choices" fields with Some _ => true | None => false end))
    by (destruct (lookup "choices" fields); reflexivity).
  rewrite extract_no_choices by assumption.
  rewrite bind_in. unfold js_in at 1. rewrite Hp.
  destruct (scanFields JSON_parse match_fenced match_braces (JObj fields) possibleFields);
    reflexivity.
Qed.

Lemma fromChoice_content (cf mf : list (string * jsval)) (content : jsval) (st : State) :
  lookup "message" cf = Some (JObj mf) ->
  lookup "content" mf = Some content ->
  fromChoice' (JObj cf) st
  = match content with
    | JStr text =>
        match JSON_parse text with
        | inl v => (Val v, st)
        | inr _ =>
            match jsonText match_fenced match_braces text with
            | Some extracted => parse JSON_parse extracted st
            | None => (Threw "JSON не найден в строке content", st)
            end
        end
    | JArr _ | JObj _ => (Val content, st)
    | _ => (Threw "Неверный тип content в ответе OpenAI", st)
    end.
Proof.
  intros Hm Hc. unfold fromChoice. rewrite bind_in. unfold js_in at 1, get at 1.
  rewrite Hm. cbv beta iota.
  change (is_object (JObj mf)) with true. cbv beta iota.
  rewrite bind_in. unfold js_in, get.
  rewrite Hc. destruct content as [| b | n | text | items | fs]; try reflexivity.
  destruct (JSON_parse text); [reflexivity |].
  destruct (jsonText match_fenced match_braces text); reflexivity.
Qed.

Lemma fromChoice_lacking (choice : jsval) (st : State) :
  (forall message, get choice "message" = Some message -> get message "content" = None) ->
  exists thrown, fromChoice' choice st = (Threw thrown, st).
Proof.
  intros H. unfold fromChoice. rewrite bind_in.
  destruct choice as [| b | n | s | items | cf]; try (eexists; reflexivity).
  unfold js_in at 1. unfold get at 1. unfold get at 1 in H.
  destruct (lookup "message" cf) as [message |]; [| eexists; reflexivity].
  specialize (H message eq_refl).
  destruct message as [| b | n | s | items | mf]; try (eexists; reflexivity).
  cbv beta iota. change (is_object (JObj mf)) with true. cbv beta iota.
  rewrite bind_in. unfold js_in. unfold get in H.
  rewrite H. eexists; reflexivity.
Qed.

(** An envelope that is not an object never reaches the third strategy:
    the test ['choices' in response] of the first one throws. *)
Lemma extract_string_envelope (responseText : string) (st : State) :
  extract' (JStr responseText) st
  = (Threw (in_TypeError "choices" (JStr responseText)), st).
Proof. unfold extract. rewrite bind_in. reflexivity. Qed.


(** *** The end of the [try] block *)

(** When the six values convert, every setter runs. *)
Lemma commit_run (parsed parameters : jsval) (np : SliderParams) (st : State) :
  newParams' parameters = inl np ->
  commit' parsed parameters st
  = (Val tt,
     {| params := np;
        insights := newInsights parameters np;
        taCapacityRF := or_default (get parsed "ta_capacity_rf") (JNum 1000000);
        kpiBenchmarks := or_default (get parsed "kpi_benchmarks") defaultKpiBenchmarks;
        aiErrorMessage := JStr "";
        recommendedBudget := or_default (get parsed "recommended_budget") JNull;
        budgetReasoning := or_default (get parsed "budget_reasoning") (JStr "");
        analysisComplete := true;
        paramView := ai |}).
Proof. intros H. unfold commit. rewrite H. reflexivity. Qed.

(** When a value does not convert, no setter runs. *)
Lemma commit_throws (parsed parameters : jsval) (message : string) (st : State) :
  newParams' parameters = inr message ->
  commit' parsed parameters st = (Threw message, st).
Proof. intros H. unfold commit. rewrite H. reflexivity. Qed.

Lemma commit_cases (parsed parameters : jsval) :
  (exists np,
     newParams' parameters = inl np /\
     forall st, fst (commit' parsed parameters st) = Val tt) \/
  (exists message,
     newParams' parameters = inr message /\
     forall st, commit' parsed parameters st = (Threw message, st)).
Proof.
  destruct (newParams' parameters) as [np | message] eqn:E.
  - left. exists np. split; [reflexivity |].
    intros st. rewrite (commit_run _ _ np) by exact E. reflexivity.
  - right. exists message. split; [reflexivity |].
    intros st. now apply commit_throws.
Qed.

Lemma commit_value_inv (parsed parameters : jsval) (st st' : State) :
  commit' parsed parameters st = (Val tt, st') ->
  exists np,
    newParams' parameters = inl np /\
    st' = {| params := np;
             insights := newInsights parameters np;
             taCapacityRF := or_default (get parsed "ta_capacity_rf") (JNum 1000000);
             kpiBenchmarks :=
               or_default (get parsed "kpi_benchmarks") defaultKpiBenchmarks;
             aiErrorMessage := JStr "";
             recommendedBudget := or_default (get parsed "recommended_budget") JNull;
             budgetReasoning := or_default (get parsed "budget_reasoning") (JStr "");
             analysisComplete := true;
             paramView := ai |}.
Proof.
  intros H. destruct (newParams' parameters) as [np | message] eqn:E.
  - rewrite (commit_run _ _ np) in H by exact E.
    exists np. split; [reflexivity |]. now inversion H.
  - rewrite (commit_throws _ _ message) in H by exact E. discriminate.
Qed.

Lemma tryBody_uniformly (response : jsval) :
  (exists parsed parameters np,
     validParameters parsed = Some parameters /\
     newParams' parameters = inl np /\
     forall st, tryBody' response st = commit' parsed parameters st) \/
  (exists message, forall st, tryBody' response st = (Threw message, st)) \/
  (exists msg,
     truthy_val msg = true /\
     forall st, tryBody' response st = (Returned, snd (setAIErrorMessage msg st))).
Proof.
  destruct (extract_uniformly response) as [v H | message H | msg T H].
  - destruct (validParameters v) as [parameters |] eqn:V.
    + destruct (newParams' parameters) as [np | message] eqn:N.
      * left. exists v, parameters, np. split; [exact V |]. split; [exact N |].
        intros st. unfold tryBody, bind. rewrite H, V. reflexivity.
      * right; left. exists message.
        intros st. unfold tryBody, bind. rewrite H, V.
        now apply commit_throws.
    + right; right. exists (JStr "Отсутствуют параметры в ответе ИИ").
      split; [reflexivity |].
      intros st. unfold tryBody, bind. rewrite H, V. reflexivity.
  - right; left. exists message. intros st. unfold tryBody, bind. rewrite H. reflexivity.
  - right; right. exists msg. split; [exact T |].
    intros st. unfold tryBody, bind. rewrite H. reflexivity.
Qed.

Lemma or_default_truthy (o : option jsval) (d : jsval) :
  truthy_val d = true -> truthy_val (or_default o d) = true.
Proof.
  intros H. unfold or_default. destruct o as [v |]; [| exact H].
  destruct (truthy_val v) eqn:E; assumption.
Qed.

(** The effect without an answer, or with a falsy one, does nothing. *)
Lemma processAIResponse_idle (aiData : option jsval) (st : State) :
  truthy_opt aiData = false ->
  processAIResponse' aiData st = (Returned, st).
Proof.
  unfold truthy_opt, processAIResponse. destruct aiData as [v |]; [| reflexivity].
  intros ->. reflexivity.
Qed.

(** On an answer, the effect does the same thing from every state: it
    commits an analysis or stores a message. *)
Lemma processAIResponse_answer (v : jsval) :
  truthy_val v = true ->
  (exists parsed parameters np,
     validParameters parsed = Some parameters /\
     newParams' parameters = inl np /\
     forall st, processAIResponse' (Some v) st = commit' parsed parameters st) \/
  (exists o msg,
     truthy_val msg = true /\ (forall message, o <> Threw message) /\
     forall st, processAIResponse' (Some v) st = (o, snd (setAIErrorMessage msg st))).
Proof.
  intros Hv. unfold processAIResponse. rewrite Hv. simpl.
  destruct (truthy_opt (get v "successful")); simpl.
  - destruct (optGet (get v "data") "response") as [response |].
    + destruct (truthy_val response).
      * destruct (tryBody_uniformly response)
          as [(parsed & parameters & np & V & N & H) | [(message & H) | (msg & T & H)]].
        -- left. exists parsed, parameters, np. split; [exact V |]. split; [exact N |].
           intros st. unfold try_catch. rewrite H.
           rewrite (commit_run _ _ np) by exact N. reflexivity.
        -- right.
           exists (Val tt), (JStr ("Не удалось распарсить ответ ИИ: " ++ message)).
           split; [reflexivity |]. split; [discriminate |].
           intros st. unfold try_catch. rewrite H. reflexivity.
        -- right. exists Returned, msg.
           split; [exact T |]. split; [discriminate |].
           intros st. unfold try_catch. rewrite H. reflexivity.
      * right. exists Returned, (JStr "Нет данных ответа от ИИ").
        split; [reflexivity |]. split; [discriminate | reflexivity].
    + right. exists Returned, (JStr "Нет данных ответа от ИИ").
      split; [reflexivity |]. split; [discriminate | reflexivity].
  - right.
    exists Returned, (or_default (get v "error") (JStr "Ошибка ИИ-анализа")).
    split; [apply or_default_truthy; reflexivity |]. split; [discriminate | reflexivity].
Qed.

Lemma processAIResponse_uniformly (aiData : option jsval) :
  (forall st, processAIResponse' aiData st = (Returned, st)) \/
  (exists parsed parameters np,
     validParameters parsed = Some parameters /\
     newParams' parameters = inl np /\
     forall st, processAIResponse' aiData st = commit' parsed parameters st) \/
  (exists o msg,
     truthy_val msg = true /\ (forall message, o <> Threw message) /\
     forall st, processAIResponse' aiData st = (o, snd (setAIErrorMessage msg st))).
Proof.
  destruct (truthy_opt aiData) eqn:T.
  - destruct aiData as [v |]; [| discriminate]. right.
    apply processAIResponse_answer. exact T.
  - left. intros st. now apply processAIResponse_idle.
Qed.

Lemma processAIResponse_never_throws (aiData : option jsval) (st : State)
    (message : string) :
  fst (processAIResponse' aiData st) <> Threw message.
Proof.
  destruct (processAIResponse_uniformly aiData)
    as [H | [(parsed & parameters & np & V & N & H) | (o & msg & T & No & H)]];
    rewrite H.
  - discriminate.
  - rewrite (commit_run _ _ np) by exact N. discriminate.
  - apply No.
Qed.

(** Whatever the [try] block throws is caught and becomes the message. *)
Lemma processAIResponse_caught (v response : jsval) (message : string) (st : State) :
  truthy_val v = true ->
  truthy_opt (get v "successful") = true ->
  optGet (get v "data") "response" = Some response ->
  truthy_val response = true ->
  tryBody' response st = (Threw message, st) ->
  processAIResponse' (Some v) st
  = (Val tt,
     snd (setAIErrorMessage (JStr ("Не удалось распарсить ответ ИИ: " ++ message)) st)).
Proof.
  intros Hv Hs Hd Hr Ht. unfold processAIResponse.
  rewrite Hv, Hs, Hd, Hr. simpl. unfold try_catch. rewrite Ht. reflexivity.
Qed.

(** An early [return] of the [try] block leaves the effect. *)
Lemma processAIResponse_returned (v response : jsval) (st st1 : State) :
  truthy_val v = true ->
  truthy_opt (get v "successful") = true ->
  optGet (get v "data") "response" = Some response ->
  truthy_val response = true ->
  tryBody' response st = (Returned, st1) ->
  processAIResponse' (Some v) st = (Returned, st1).
Proof.
  intros Hv Hs Hd Hr Ht. unfold processAIResponse.
  rewrite Hv, Hs, Hd, Hr. simpl. unfold try_catch. rewrite Ht. reflexivity.
Qed.

Lemma processAIResponse_tool_failure (v : jsval) (st : State) :
  truthy_val v = true ->
  truthy_opt (get v "successful") = false ->
  processAIResponse' (Some v) st
  = (Returned,
     snd (setAIErrorMessage (or_default (get v "error") (JStr "Ошибка ИИ-анализа")) st)).
Proof.
  intros Hv Hs. unfold processAIResponse. rewrite Hv, Hs. reflexivity.
Qed.

Lemma processAIResponse_no_response (v : jsval) (st : State) :
  truthy_val v = true ->
  truthy_opt (get v "successful") = true ->
  truthy_opt (optGet (get v "data") "response") = false ->
  processAIResponse' (Some v) st
  = (Returned, snd (setAIErrorMessage (JStr "Нет данных ответа от ИИ") st)).
Proof.
  intros Hv Hs Hr. unfold processAIResponse. rewrite Hv, Hs. simpl.
  unfold truthy_opt in Hr.
  destruct (optGet (get v "data") "response") as [response |]; [| reflexivity].
  rewrite Hr. reflexivity.
Qed.

Lemma tryBody_missing_parameters (response parsed : jsval) (st : State) :
  extract' response st = (Val parsed, st) ->
  validParameters parsed = None ->
  tryBody' response st
  = (Returned,
     snd (setAIErrorMessage (JStr "Отсутствуют параметры в ответе ИИ") st)).
Proof. intros He Hv. unfold tryBody, bind. rewrite He, Hv. reflexivity. Qed.

Lemma tryBody_extract_returned (response : jsval) (st st1 : State) :
  extract' response st = (Returned, st1) ->
  tryBody' response st = (Returned, st1).
Proof. intros He. unfold tryBody, bind. rewrite He. reflexivity. Qed.

Lemma tryBody_extract_threw (response : jsval) (message : string) (st : State) :
  extract' response st = (Threw message, st) ->
  tryBody' response st = (Threw message, st).
Proof. intros He. unfold tryBody, bind. rewrite He. reflexivity. Qed.

Lemma tryBody_conversion_failure (response parsed parameters : jsval)
    (message : string) (st : State) :
  extract' response st = (Val parsed, st) ->
  validParameters parsed = Some parameters ->
  newParams' parameters = inr message ->
  tryBody' response st = (Threw message, st).
Proof.
  intros He Hv Hn. unfold tryBody, bind. rewrite He, Hv. now apply commit_throws.
Qed.


(** *** The committed values *)

Lemma paramValue_number (parameters : jsval) (key : string) (v : num) :
  optGet (get parameters key) "value" = Some (JNum v) ->
  paramValue' parameters key = inl (clamp v).
Proof. intros H. unfold paramValue. rewrite H. reflexivity. Qed.

Lemma clamp_zero : clamp (Fin 0) = Fin 0.
Proof. rewrite clamp_real. f_equal. apply Rmax_Rmin_inside. lra. Qed.

Lemma clamp_one : clamp (Fin 1) = Fin 1.
Proof. rewrite clamp_real. f_equal. apply Rmax_Rmin_inside. lra. Qed.

Lemma paramValue_missing (parameters : jsval) (key : string) :
  optGet (get parameters key) "value" = None \/
  optGet (get parameters key) "value" = Some JNull ->
  paramValue' parameters key = inl (Fin 0).
Proof.
  intros [H | H]; unfold paramValue; rewrite H;
    change (@inl num string (clamp (Fin 0)) = inl (Fin 0));
    rewrite clamp_zero; reflexivity.
Qed.

Lemma paramValue_true (parameters : jsval) (key : string) :
  optGet (get parameters key) "value" = Some (JBool true) ->
  paramValue' parameters key = inl (Fin 1).
Proof.
  intros H. unfold paramValue. rewrite H.
  change (@inl num string (clamp (Fin 1)) = inl (Fin 1)).
  rewrite clamp_one. reflexivity.
Qed.

Lemma paramValue_own_toString (parameters : jsval) (key : string)
    (fields : list (string * jsval)) (other : jsval) :
  optGet (get parameters key) "value" = Some (JObj fields) ->
  lookup "toString" fields = Some other ->
  paramValue' parameters key = inr (ToPrimitive_TypeError (JObj fields)).
Proof.
  intros H L. unfold paramValue. rewrite H. cbn [nullish]. unfold ToNumber.
  rewrite L. reflexivity.
Qed.

Lemma paramValue_plain_object (parameters : jsval) (key : string)
    (fields : list (string * jsval)) :
  optGet (get parameters key) "value" = Some (JObj fields) ->
  lookup "toString" fields = None ->
  paramValue' parameters key = inl NaN.
Proof.
  intros H L. unfold paramValue. rewrite H. cbn [nullish]. unfold ToNumber.
  rewrite L. reflexivity.
Qed.

Lemma sixKeys_newParams (parameters : jsval) (np : SliderParams) (key : string)
    (field : SliderParams -> num) :
  newParams' parameters = inl np ->
  In (key, field) sixKeys ->
  paramValue' parameters key = inl (field np) /\
  insightOf key (newInsights parameters np)
  = Some (newInsight parameters key (field np)).
Proof.
  unfold newParams. intros N.
  destruct (paramValue' parameters "brand_awareness") as [v1 |] eqn:E1;
    [| discriminate].
  destruct (paramValue' parameters "market_saturation") as [v2 |] eqn:E2;
    [| discriminate].
  destruct (paramValue' parameters "campaign_goal") as [v3 |] eqn:E3;
    [| discriminate].
  destruct (paramValue' parameters "target_audience") as [v4 |] eqn:E4;
    [| discriminate].
  destruct (paramValue' parameters "product_complexity") as [v5 |] eqn:E5;
    [| discriminate].
  destruct (paramValue' parameters "message_complexity") as [v6 |] eqn:E6;
    [| discriminate].
  injection N as <-.
  unfold sixKeys. simpl In.
  intros [H | [H | [H | [H | [H | [H | []]]]]]]; inversion H; subst; clear H;
    split; reflexivity || assumption.
Qed.

(** The sliders are computed exactly when each of the six values converts. *)
Lemma newParams_converts (parameters : jsval) :
  (forall key field,
     In (key, field) sixKeys -> exists n, paramValue' parameters key = inl n) ->
  exists np, newParams' parameters = inl np.
Proof.
  intros H. unfold newParams.
  destruct (H "brand_awareness" brandAwareness) as (v1 & ->); [in_sixKeys |].
  destruct (H "market_saturation" marketSaturation) as (v2 & ->); [in_sixKeys |].
  destruct (H "campaign_goal" campaignGoal) as (v3 & ->); [in_sixKeys |].
  destruct (H "target_audience" targetAudience) as (v4 & ->); [in_sixKeys |].
  destruct (H "product_complexity" productComplexity) as (v5 & ->); [in_sixKeys |].
  destruct (H "message_complexity" messageComplexity) as (v6 & ->); [in_sixKeys |].
  eexists. reflexivity.
Qed.

Lemma newParams_fails (parameters : jsval) (key : string)
    (field : SliderParams -> num) (message : string) :
  In (key, field) sixKeys ->
  paramValue' parameters key = inr message ->
  exists thrown, newParams' parameters = inr thrown.
Proof.
  intros Hin Hp.
  destruct (newParams' parameters) as [np | thrown] eqn:N; [| now exists thrown].
  destruct (sixKeys_newParams parameters np key field N Hin) as [E _].
  rewrite E in Hp. discriminate.
Qed.

(** C2 (as amended): for each of the six keys, the value computed for the
    slider is clamp(raw) when the raw [.value] is a number, hence within
    [-2, 2] when it is a real, and 0 when the key or its [.value] is absent
    or null.  A present [.value] that is not a number is not replaced by 0:
    it is converted to a number ([true] gives 1), and when it cannot be
    converted (an object with a field [toString]) the conversion throws and
    nothing is committed.  The analysis is committed when all six values
    convert; the slider committed is then the value computed, the insight
    committed for the key carries the same value, and for an absent key it
    is the complete entry with value 0 and the two placeholder strings.
    clamp(-5) = -2.0, clamp(5) = 2.0 and clamp(0.37) = 0.37. *)
Theorem C2_parameter_values (parsed parameters : jsval) (st : State)
    (key : string) (field : SliderParams -> num) :
  In (key, field) sixKeys ->
  let raw := optGet (get parameters key) "value" in
  (forall v : num, raw = Some (JNum v) -> paramValue' parameters key = inl (clamp v)) /\
  (forall r : R,
     raw = Some (JNum (Fin r)) ->
     exists c : R,
       paramValue' parameters key = inl (Fin c) /\
       c = Rmax (-2) (Rmin 2 r) /\ -2 <= c <= 2) /\
  (raw = None \/ raw = Some JNull -> paramValue' parameters key = inl (Fin 0)) /\
  (raw = Some (JBool true) -> paramValue' parameters key = inl (Fin 1)) /\
  (forall fields other,
     raw = Some (JObj fields) -> lookup "toString" fields = Some other ->
     paramValue' parameters key = inr (ToPrimitive_TypeError (JObj fields))) /\
  (forall message,
     paramValue' parameters key = inr message ->
     exists thrown, commit' parsed parameters st = (Threw thrown, st)) /\
  ((forall k f, In (k, f) sixKeys -> exists n, paramValue' parameters k = inl n) ->
   exists st', commit' parsed parameters st = (Val tt, st')) /\
  (forall st',
     commit' parsed parameters st = (Val tt, st') ->
     paramValue' parameters key = inl (field (params st')) /\
     (exists entry,
        insightOf key (insights st') = Some entry /\
        id entry = key /\ value entry = field (params st')) /\
     (get parameters key = None ->
      field (params st') = Fin 0 /\
      insightOf key (insights st')
      = Some {| id := key; value := Fin 0;
                insight := JStr "Инсайт недоступен";
                source := JStr "ИИ-Анализ" |})) /\
  clamp (Fin (-5)) = Fin (-2.0) /\
  clamp (Fin 5) = Fin 2.0 /\
  clamp (Fin 0.37) = Fin 0.37.
Proof.
  intros Hin raw. subst raw.
  split; [| split; [| split; [| split; [| split; [| split; [| split; [| split;
    [| repeat split]]]]]]]].
  - intros v. apply paramValue_number.
  - intros r H. rewrite (paramValue_number _ _ _ H), clamp_real.
    eexists. split; [reflexivity |]. split; [reflexivity |].
    apply Rmax_Rmin_bounds. lra.
  - apply paramValue_missing.
  - apply paramValue_true.
  - intros fields other. apply paramValue_own_toString.
  - intros message Hp.
    destruct (newParams_fails parameters key field message Hin Hp) as (thrown & N).
    exists thrown. now apply commit_throws.
  - intros H. destruct (newParams_converts parameters H) as (np & N).
    eexists. apply (commit_run _ _ np). exact N.
  - intros st' Hc.
    destruct (commit_value_inv _ _ _ _ Hc) as (np & N & ->).
    cbn [params insights].
    destruct (sixKeys_newParams parameters np key field N Hin) as [Ep Ei].
    split; [exact Ep |]. split.
    + eexists. split; [exact Ei |]. split; reflexivity.
    + intros H.
      assert (E : paramValue' parameters key = inl (Fin 0)).
      { apply paramValue_missing. left. rewrite H. reflexivity. }
      rewrite Ep in E. injection E as E.
      split; [exact E |]. rewrite Ei, E. unfold newInsight. rewrite H. reflexivity.
  - rewrite clamp_real. f_equal. rewrite Rmax_Rmin_below by lra. lra.
  - rewrite clamp_real. f_equal. rewrite Rmax_Rmin_above by lra. lra.
  - rewrite clamp_real. f_equal. apply Rmax_Rmin_inside. lra.
Qed.

Lemma or_default_falsy (o : option jsval) (d : jsval) :
  truthy_opt o = false -> or_default o d = d.
Proof.
  unfold truthy_opt, or_default. destruct o as [v |]; [| reflexivity].
  intros ->. reflexivity.
Qed.

Lemma or_default_nonzero (r : R) (d : jsval) :
  r <> 0 -> or_default (Some (JNum (Fin r))) d = JNum (Fin r).
Proof.
  intros H. unfold or_default, truthy_val. rewrite truthy_Fin_nonzero by assumption.
  reflexivity.
Qed.

(** C7 (as amended): when the analysis is committed, the capacity
    committed is 1000000 when the field [ta_capacity_rf] of the payload is
    absent, null, zero or otherwise falsy; a number other than zero,
    positive or negative, is committed unchanged.  When the sliders cannot
    be computed the capacity, like the rest of the state, is left as it
    was. *)
Theorem C7_ta_capacity_default (parsed parameters : jsval) (st : State) :
  (forall st',
     commit' parsed parameters st = (Val tt, st') ->
     (truthy_opt (get parsed "ta_capacity_rf") = false ->
      taCapacityRF st' = JNum 1000000) /\
     (get parsed "ta_capacity_rf" = None \/
      get parsed "ta_capacity_rf" = Some JNull \/
      get parsed "ta_capacity_rf" = Some (JNum 0) ->
      taCapacityRF st' = JNum 1000000) /\
     (forall r : R,
        get parsed "ta_capacity_rf" = Some (JNum (Fin r)) -> 0 < r ->
        taCapacityRF st' = JNum (Fin r)) /\
     (forall r : R,
        get parsed "ta_capacity_rf" = Some (JNum (Fin r)) -> r < 0 ->
        taCapacityRF st' = JNum (Fin r))) /\
  (forall message st',
     commit' parsed parameters st = (Threw message, st') -> st' = st) /\
  ((forall k f, In (k, f) sixKeys -> exists n, paramValue' parameters k = inl n) ->
   exists st', commit' parsed parameters st = (Val tt, st')).
Proof.
  split; [| split].
  - intros st' Hc. destruct (commit_value_inv _ _ _ _ Hc) as (np & N & ->).
    cbn [taCapacityRF].
    split; [| split; [| split]].
    + apply or_default_falsy.
    + intros [H | [H | H]]; rewrite H; try reflexivity.
      unfold or_default, truthy_val, truthy.
      destruct (Req_dec_T 0 0); [reflexivity | contradiction].
    + intros r -> Hr. apply or_default_nonzero. lra.
    + intros r -> Hr. apply or_default_nonzero. lra.
  - intros message st' Hc.
    destruct (newParams' parameters) as [np | thrown] eqn:N.
    + rewrite (commit_run _ _ np) in Hc by exact N. discriminate.
    + rewrite (commit_throws _ _ thrown) in Hc by exact N. now inversion Hc.
  - intros H. destruct (newParams_converts parameters H) as (np & N).
    eexists. apply (commit_run _ _ np). exact N.
Qed.

(** An answer whose response is the payload itself, with parameters whose
    six values convert, is committed. *)
Lemma processAIResponse_direct (v : jsval) (fields : list (string * jsval))
    (parameters : jsval) (np : SliderParams) (st : State) :
  truthy_val v = true ->
  truthy_opt (get v "successful") = true ->
  optGet (get v "data") "response" = Some (JObj fields) ->
  (forall choice rest, lookup "choices" fields <> Some (JArr (choice :: rest))) ->
  lookup "parameters" fields = Some parameters ->
  truthy_val parameters = true ->
  newParams' parameters = inl np ->
  processAIResponse' (Some v) st
  = (Val tt,
     {| params := np;
        insights := newInsights parameters np;
        taCapacityRF :=
          or_default (lookup "ta_capacity_rf" fields) (JNum 1000000);
        kpiBenchmarks :=
          or_default (lookup "kpi_benchmarks" fields) defaultKpiBenchmarks;
        aiErrorMessage := JStr "";
        recommendedBudget := or_default (lookup "recommended_budget" fields) JNull;
        budgetReasoning := or_default (lookup "budget_reasoning" fields) (JStr "");
        analysisComplete := true;
        paramView := ai |}).
Proof.
  intros Hv Hs Hd Hc Hp Ht N. unfold processAIResponse.
  rewrite Hv, Hs, Hd. cbn [negb truthy_val]. unfold try_catch, tryBody, bind.
  rewrite (extract_parameters fields parameters st Hc Hp).
  unfold validParameters. cbn [truthy_val get]. rewrite Hp, Ht.
  rewrite (commit_run _ _ np) by exact N. reflexivity.
Qed.

End ResponseEffectProperties.

(** ** The response effect on the example answers *)

Lemma newParams_sample_empty :
  newParams StringToNumber_sample ArrayToString_sample ToPrimitive_TypeError_sample
    (JObj [])
  = inl initialParams.
Proof.
  unfold newParams.
  repeat rewrite (paramValue_missing StringToNumber_sample ArrayToString_sample
                    ToPrimitive_TypeError_sample (JObj []) _ (or_introl eq_refl)).
  reflexivity.
Qed.

(** The sliders computed from parameters that hold [brand_awareness] alone. *)
Lemma newParams_sample_brand (entry : jsval) (v : num) :
  paramValue StringToNumber_sample ArrayToString_sample ToPrimitive_TypeError_sample
    (JObj [("brand_awareness", entry)]) "brand_awareness"
  = inl v ->
  newParams StringToNumber_sample ArrayToString_sample ToPrimitive_TypeError_sample
    (JObj [("brand_awareness", entry)])
  = inl (mkSliderParams v 0 0 0 0 0).
Proof.
  intros H. unfold newParams. rewrite H.
  rewrite (paramValue_missing StringToNumber_sample ArrayToString_sample
             ToPrimitive_TypeError_sample (JObj [("brand_awareness", entry)])
             "market_saturation" (or_introl eq_refl)).
  rewrite (paramValue_missing StringToNumber_sample ArrayToString_sample
             ToPrimitive_TypeError_sample (JObj [("brand_awareness", entry)])
             "campaign_goal" (or_introl eq_refl)).
  rewrite (paramValue_missing StringToNumber_sample ArrayToString_sample
             ToPrimitive_TypeError_sample (JObj [("brand_awareness", entry)])
             "target_audience" (or_introl eq_refl)).
  rewrite (paramValue_missing StringToNumber_sample ArrayToString_sample
             ToPrimitive_TypeError_sample (JObj [("brand_awareness", entry)])
             "product_complexity" (or_introl eq_refl)).
  rewrite (paramValue_missing StringToNumber_sample ArrayToString_sample
             ToPrimitive_TypeError_sample (JObj [("brand_awareness", entry)])
             "message_complexity" (or_introl eq_refl)).
  reflexivity.
Qed.

(** The effect under the example host on a payload answered directly. *)
Lemma processAIResponse_sample_direct (fields : list (string * jsval))
    (parameters : jsval) (np : SliderParams) (st : State) :
  (forall choice rest, lookup "choices" fields <> Some (JArr (choice :: rest))) ->
  lookup "parameters" fields = Some parameters ->
  truthy_val parameters = true ->
  newParams StringToNumber_sample ArrayToString_sample ToPrimitive_TypeError_sample
    parameters
  = inl np ->
  processAIResponse JSON_parse_sample match_fenced_sample match_braces_sample
    in_TypeError_sample StringToNumber_sample ArrayToString_sample
    ToPrimitive_TypeError_sample (Some (successfulAnswer (JObj fields))) st
  = (Val tt,
     {| params := np;
        insights := newInsights parameters np;
        taCapacityRF :=
          or_default (lookup "ta_capacity_rf" fields) (JNum 1000000);
        kpiBenchmarks :=
          or_default (lookup "kpi_benchmarks" fields) defaultKpiBenchmarks;
        aiErrorMessage := JStr "";
        recommendedBudget := or_default (lookup "recommended_budget" fields) JNull;
        budgetReasoning := or_default (lookup "budget_reasoning" fields) (JStr "");
        analysisComplete := true;
        paramView := ai |}).
Proof.
  intros Hc Hp Ht N.
  apply (processAIResponse_direct JSON_parse_sample match_fenced_sample
           match_braces_sample in_TypeError_sample StringToNumber_sample
           ArrayToString_sample ToPrimitive_TypeError_sample
           (successfulAnswer (JObj fields)) fields parameters np st);
    trivial; reflexivity.
Qed.



Lemma commit_sample_empty (parsed : jsval) (st : State) :
  commit StringToNumber_sample ArrayToString_sample ToPrimitive_TypeError_sample
    parsed (JObj []) st
  = (Val tt,
     snd (commit StringToNumber_sample ArrayToString_sample
            ToPrimitive_TypeError_sample parsed (JObj []) st)).
Proof.
  rewrite (commit_run _ _ _ _ _ initialParams) by exact newParams_sample_empty.
  reflexivity.
Qed.

Lemma C2_parameter_values_witness :
  let st' :=
    snd (commit StringToNumber_sample ArrayToString_sample
           ToPrimitive_TypeError_sample (payloadWithInsight "direct") (JObj [])
           initialState) in
  (brandAwareness (params st') = Fin 0 /\
   insightOf "brand_awareness" (insights st')
   = Some {| id := "brand_awareness"; value := Fin 0;
             insight := JStr "Инсайт недоступен";
             source := JStr "ИИ-Анализ" |}) /\
  (exists st'',
     commit StringToNumber_sample ArrayToString_sample ToPrimitive_TypeError_sample
       (payloadWithInsight "direct") (JObj []) initialState
     = (Val tt, st'')) /\
  (exists thrown,
     commit StringToNumber_sample ArrayToString_sample ToPrimitive_TypeError_sample
       unconvertiblePayload
       (JObj [("brand_awareness", JObj [("value", JObj [("toString", JNum 1)])])])
       previousState
     = (Threw thrown, previousState)).
Proof.
  assert (Hin : In ("brand_awareness", brandAwareness) sixKeys)
    by (simpl; left; reflexivity).
  intros st'. split; [| split].
  - pose proof (C2_parameter_values StringToNumber_sample ArrayToString_sample
                  ToPrimitive_TypeError_sample
                  (payloadWithInsight "direct") (JObj []) initialState
                  "brand_awareness" brandAwareness Hin) as T.
    cbv zeta in T. destruct T as (_ & _ & _ & _ & _ & _ & _ & T & _).
    destruct (T st' (commit_sample_empty _ _)) as (_ & _ & A).
    apply A. reflexivity.
  - pose proof (C2_parameter_values StringToNumber_sample ArrayToString_sample
                  ToPrimitive_TypeError_sample
                  (payloadWithInsight "direct") (JObj []) initialState
                  "brand_awareness" brandAwareness Hin) as T.
    cbv zeta in T. destruct T as (_ & _ & _ & _ & _ & _ & T & _).
    apply T. intros k f _. exists (Fin 0).
    apply paramValue_missing. left. reflexivity.
  - pose proof (C2_parameter_values StringToNumber_sample ArrayToString_sample
                  ToPrimitive_TypeError_sample unconvertiblePayload
                  (JObj [("brand_awareness",
                          JObj [("value", JObj [("toString", JNum 1)])])])
                  previousState "brand_awareness" brandAwareness Hin) as T.
    cbv zeta in T. destruct T as (_ & _ & _ & _ & _ & T & _).
    apply (T "Cannot convert object to primitive value"). reflexivity.
Defined.

(** C2, the claim as written fails: a [.value] that is present and not a
    number (here the boolean [true]) does not become 0; it is converted, and
    the slider is set to 1. *)
Lemma C2_non_numeric_value_counterexample :
  optGet (optGet (get booleanValuePayload "parameters") "brand_awareness") "value"
  = Some (JBool true) /\
  brandAwareness
    (params (snd (processAIResponse_sample
                    (Some (successfulAnswer booleanValuePayload)) initialState)))
  = Fin 1 /\
  brandAwareness
    (params (snd (processAIResponse_sample
                    (Some (successfulAnswer booleanValuePayload)) initialState)))
  <> Fin 0.
Proof.
  assert (N : newParams StringToNumber_sample ArrayToString_sample
                ToPrimitive_TypeError_sample
                (JObj [("brand_awareness", JObj [("value", JBool true)])])
              = inl (mkSliderParams 1 0 0 0 0 0)).
  { apply newParams_sample_brand. now apply paramValue_true. }
  assert (E : brandAwareness
                (params (snd (processAIResponse_sample
                                (Some (successfulAnswer booleanValuePayload))
                                initialState)))
              = Fin 1).
  { unfold processAIResponse_sample, booleanValuePayload.
    erewrite processAIResponse_sample_direct;
      [| discriminate | reflexivity | reflexivity | exact N].
    reflexivity. }
  split; [reflexivity |]. split; [exact E |].
  rewrite E. intros H. injection H. lra.
Qed.


Lemma C7_ta_capacity_default_witness :
  taCapacityRF
    (snd (commit StringToNumber_sample ArrayToString_sample
            ToPrimitive_TypeError_sample (capacityPayload 1500000) (JObj [])
            initialState))
  = JNum 1500000.
Proof.
  refine (proj1 (proj2 (proj2 (proj1 (C7_ta_capacity_default StringToNumber_sample
            ArrayToString_sample ToPrimitive_TypeError_sample
            (capacityPayload 1500000) (JObj []) initialState)
            _ (commit_sample_empty _ _))))
            1500000 _ _); [reflexivity | lra].
Defined.

(** C7, the claim as written fails: a negative [ta_capacity_rf] is not
    positive, yet it is committed as it is, not replaced by 1000000. *)
Lemma C7_negative_capacity_counterexample :
  get (capacityPayload (-5)) "ta_capacity_rf" = Some (JNum (-5)) /\
  ~ 0 < -5 /\
  fst (processAIResponse_sample (Some (successfulAnswer (capacityPayload (-5))))
         initialState)
  = Val tt /\
  taCapacityRF
    (snd (processAIResponse_sample (Some (successfulAnswer (capacityPayload (-5))))
            initialState))
  = JNum (-5) /\
  taCapacityRF
    (snd (processAIResponse_sample (Some (successfulAnswer (capacityPayload (-5))))
            initialState))
  <> JNum 1000000.
Proof.
  unfold processAIResponse_sample.
  unfold capacityPayload at 2 3 4.
  erewrite processAIResponse_sample_direct;
    [| discriminate | reflexivity | reflexivity | exact newParams_sample_empty].
  cbn [fst snd taCapacityRF].
  match goal with
  | |- context [or_default ?o _] =>
      change o with (Some (JNum (Fin (-5))))
  end.
  assert (E : or_default (Some (JNum (Fin (-5)))) (JNum 1000000) = JNum (-5)).
  { apply or_default_nonzero. lra. }
  split; [reflexivity |]. split; [lra |]. split; [reflexivity |].
  split; [exact E |].
  rewrite E. intros H. injection H. lra.
Qed.

(** C5, the claim as written fails: a payload whose [brand_awareness.value]
    is an object is committed with the slider NaN; the frequency is then
    NaN, and with a budget of 0 (and the default capacity) the coverage is
    NaN, not 0. *)
Lemma C5_nan_slider_counterexample :
  let run :=
    processAIResponse_sample (Some (successfulAnswer objectValuePayload))
      initialState in
  fst run = Val tt /\
  brandAwareness (params (snd run)) = NaN /\
  taCapacityRF (snd run) = JNum 1000000 /\
  frequency (params (snd run)) = NaN /\
  parseFloat_plain "0" = Fin 0 /\
  calculateCoverage parseFloat_plain (mkAIFormData "Brand" "0" "awareness")
    (frequency (params (snd run))) (Fin 1000000)
  = NaN /\
  calculateCoverage parseFloat_plain (mkAIFormData "Brand" "0" "awareness")
    (frequency (params (snd run))) (Fin 1000000)
  <> Fin 0.
Proof.
  intros run.
  assert (N : newParams StringToNumber_sample ArrayToString_sample
                ToPrimitive_TypeError_sample
                (JObj [("brand_awareness", JObj [("value", JObj [])])])
              = inl (mkSliderParams NaN 0 0 0 0 0)).
  { apply newParams_sample_brand. now apply (paramValue_plain_object _ _ _ _ _ []). }
  subst run. unfold processAIResponse_sample, objectValuePayload.
  erewrite processAIResponse_sample_direct;
    [| discriminate | reflexivity | reflexivity | exact N].
  cbn [fst snd params taCapacityRF brandAwareness].
  assert (F : frequency (mkSliderParams NaN 0 0 0 0 0) = NaN) by reflexivity.
  assert (C : calculateCoverage parseFloat_plain
                (mkAIFormData "Brand" "0" "awareness")
                (frequency (mkSliderParams NaN 0 0 0 0 0)) (Fin 1000000)
              = NaN).
  { rewrite F. rewrite calculateCoverage_formula;
      [| reflexivity | reflexivity | apply strict_eq_Fin_false; lra].
    cbn [budget]. rewrite parseFloat_plain_zero.
    rewrite (div_Fin 0 400) by lra. rewrite mul_Fin. reflexivity. }
  split; [reflexivity |]. split; [reflexivity |]. split; [reflexivity |].
  split; [exact F |]. split; [apply parseFloat_plain_zero |].
  split; [exact C |]. rewrite C. discriminate.
Qed.

(** * Further properties of the metric engine *)

Lemma clamped_sum_monotone (s t : R) :
  s <= t ->
  Rmax 1 (Rmin 15 (1 + s)) <= Rmax 1 (Rmin 15 (1 + t))
  /\ Rmax 1 (Rmin 15 (1 + t)) <= Rmax 1 (Rmin 15 (1 + s)) + (t - s).
Proof.
  intros H. unfold Rmax, Rmin.
  destruct (Rle_dec 15 (1 + s)), (Rle_dec 15 (1 + t));
    repeat match goal with
           | |- context [Rle_dec ?a ?b] => destruct (Rle_dec a b)
           end; split; lra.
Qed.

Lemma realValued_withSlider (key : SliderKey) (v : R) (p : SliderParams) :
  realValued p -> realValued (withSlider key (Fin v) p).
Proof.
  intros H. destruct (realValued_inv p H) as (a & b & c & d & e & f & ->).
  destruct key; unfold realValued, Object_values; simpl;
    repeat constructor; eexists; reflexivity.
Qed.

(** X1: moving one slider up never lowers the frequency, and raises it by
    no more than the slider moved. *)
Theorem X1_slider_up_frequency_up (key : SliderKey) (p : SliderParams) (v w : R) :
  realValued p -> v <= w ->
  exists x y : R,
    frequency (withSlider key (Fin v) p) = Fin x /\
    frequency (withSlider key (Fin w) p) = Fin y /\
    x <= y <= x + (w - v).
Proof.
  intros Hp Hvw. destruct (realValued_inv p Hp) as (a & b & c & d & e & f & ->).
  destruct key; simpl withSlider; rewrite !frequency_real;
    do 2 eexists; (split; [reflexivity |]); (split; [reflexivity |]).
  - destruct (clamped_sum_monotone (0 + v + b + c + d + e + f) (0 + w + b + c + d + e + f));
      lra.
  - destruct (clamped_sum_monotone (0 + a + v + c + d + e + f) (0 + a + w + c + d + e + f));
      lra.
  - destruct (clamped_sum_monotone (0 + a + b + v + d + e + f) (0 + a + b + w + d + e + f));
      lra.
  - destruct (clamped_sum_monotone (0 + a + b + c + v + e + f) (0 + a + b + c + w + e + f));
      lra.
  - destruct (clamped_sum_monotone (0 + a + b + c + d + v + f) (0 + a + b + c + d + w + f));
      lra.
  - destruct (clamped_sum_monotone (0 + a + b + c + d + e + v) (0 + a + b + c + d + e + w));
      lra.
Qed.

Lemma X1_slider_up_frequency_up_witness :
  exists x y : R,
    frequency (withSlider keyTargetAudience (Fin 0.5) initialParams) = Fin x /\
    frequency (withSlider keyTargetAudience (Fin 1.5) initialParams) = Fin y /\
    x <= y <= x + (1.5 - 0.5).
Proof.
  apply (X1_slider_up_frequency_up keyTargetAudience initialParams 0.5 1.5).
  - unfold realValued, initialParams, Object_values; simpl.
    repeat constructor; exists 0; reflexivity.
  - lra.
Defined.

Lemma inSliderRange_intro (a b c d e f : R) :
  -2 <= a <= 2 -> -2 <= b <= 2 -> -2 <= c <= 2 ->
  -2 <= d <= 2 -> -2 <= e <= 2 -> -2 <= f <= 2 ->
  inSliderRange (mkSliderParams a b c d e f).
Proof.
  intros. unfold inSliderRange, Object_values; simpl.
  repeat constructor; eexists; (split; [reflexivity | assumption]).
Qed.

Lemma frequency_in_range (p : SliderParams) :
  inSliderRange p ->
  exists s x : R,
    sliderSum p = Fin s /\ frequency p = Fin x /\ x = Rmax 1 (1 + s) /\ 1 <= x <= 13.
Proof.
  intros H.
  destruct (inSliderRange_inv p H)
    as (a & b & c & d & e & f & -> & Ha & Hb & Hc & Hd & He & Hf).
  exists (0 + a + b + c + d + e + f), (Rmax 1 (1 + (0 + a + b + c + d + e + f))).
  split; [apply sliderSum_real |].
  split.
  - rewrite frequency_real. f_equal. f_equal. unfold Rmin.
    destruct (Rle_dec 15 (1 + (0 + a + b + c + d + e + f))); lra.
  - split; [reflexivity |]. unfold Rmax.
    destruct (Rle_dec 1 (1 + (0 + a + b + c + d + e + f))); lra.
Qed.

(** X2: the slider handler writes [value[0]] into the named slider and into
    no other; a value of the slider range keeps all sliders in range, and
    then the frequency is max(1, 1 + sum) and at most 13: the upper bound
    15 of the clamp is never reached from the sliders. *)
Theorem X2_handleSliderChange_invariant (key : SliderKey) (p : SliderParams)
    (v : R) (rest : list num) :
  inSliderRange p -> -2 <= v <= 2 ->
  exists q : SliderParams,
    handleSliderChange key (Fin v :: rest) p = Some q /\
    sliderOf key q = Fin v /\
    (forall other, other <> key -> sliderOf other q = sliderOf other p) /\
    inSliderRange q /\
    exists s x : R,
      sliderSum q = Fin s /\ frequency q = Fin x /\ x = Rmax 1 (1 + s) /\ 1 <= x <= 13.
Proof.
  intros Hp Hv. exists (withSlider key (Fin v) p).
  split; [reflexivity |].
  split; [destruct key; reflexivity |].
  split; [intros other Ho; destruct key, other; try reflexivity; contradiction |].
  assert (Hq : inSliderRange (withSlider key (Fin v) p)).
  { destruct (inSliderRange_inv p Hp)
      as (a & b & c & d & e & f & -> & Ha & Hb & Hc & Hd & He & Hf).
    destruct key; simpl withSlider; apply inSliderRange_intro; assumption. }
  split; [exact Hq |]. now apply frequency_in_range.
Qed.

Lemma X2_handleSliderChange_invariant_witness :
  exists q : SliderParams,
    handleSliderChange keyCampaignGoal [Fin 1.3] initialParams = Some q /\
    sliderOf keyCampaignGoal q = Fin 1.3 /\
    (forall other, other <> keyCampaignGoal ->
                   sliderOf other q = sliderOf other initialParams) /\
    inSliderRange q /\
    exists s x : R,
      sliderSum q = Fin s /\ frequency q = Fin x /\ x = Rmax 1 (1 + s) /\ 1 <= x <= 13.
Proof.
  apply (X2_handleSliderChange_invariant keyCampaignGoal initialParams 1.3 []).
  - unfold inSliderRange, initialParams, Object_values; simpl.
    repeat constructor; exists 0; (split; [reflexivity | lra]).
  - lra.
Defined.

(** X3: for a budget, real sliders and a positive capacity, the coverage
    times frequency times capacity is 20 times the budget; it is not capped
    at 100 and exceeds 100 exactly when the budget exceeds 5 times the
    frequency times the capacity. *)
Theorem X3_coverage_threshold parseFloat (form : AIFormData) (p : SliderParams)
    (b t : R) :
  realValued p -> budget form <> "" -> parseFloat (budget form) = Fin b -> 0 < t ->
  exists f c : R,
    frequency p = Fin f /\
    calculateCoverage parseFloat form (frequency p) (Fin t) = Fin c /\
    c * (f * t) = 20 * b /\
    (100 < c <-> 5 * f * t < b).
Proof.
  intros Hp Hb Hparse Ht.
  destruct (frequency_lower_bound p Hp) as (f & Ef & Hf).
  exists f, (b / 400 * 1000 / f / t * 100 * 0.08).
  rewrite Ef. split; [reflexivity |].
  split; [apply calculateCoverage_real; trivial; lra |].
  assert (Hft : 0 < f * t) by nra.
  assert (E : b / 400 * 1000 / f / t * 100 * 0.08 = 20 * b / (f * t)).
  { replace 0.08 with (8 / 100) by lra. field. split; lra. }
  rewrite E. split.
  - field. split; lra.
  - split; intros H.
    + apply (Rmult_lt_compat_r (f * t)) in H; [| exact Hft].
      replace (20 * b / (f * t) * (f * t)) with (20 * b) in H by (field; split; lra).
      lra.
    + apply (Rmult_lt_reg_r (f * t)); [exact Hft |].
      replace (20 * b / (f * t) * (f * t)) with (20 * b) by (field; split; lra).
      lra.
Qed.

Lemma X3_coverage_threshold_witness :
  exists f c : R,
    frequency initialParams = Fin f /\
    calculateCoverage parseFloat_plain (mkAIFormData "Brand" "1000000" "awareness")
      (frequency initialParams) (Fin 1000000) = Fin c /\
    c * (f * 1000000) = 20 * 1000000 /\
    (100 < c <-> 5 * f * 1000000 < 1000000).
Proof.
  apply (X3_coverage_threshold parseFloat_plain
           (mkAIFormData "Brand" "1000000" "awareness") initialParams 1000000 1000000).
  - unfold realValued, initialParams, Object_values; simpl.
    repeat constructor; exists 0; reflexivity.
  - discriminate.
  - apply parseFloat_plain_million.
  - lra.
Defined.

Lemma calculateTOM_real parseFloat (form : AIFormData) kpi (b f base : R) :
  budget form <> "" -> formCampaignGoal form <> "" ->
  parseFloat (budget form) = Fin b -> 0 <= b ->
  getBaseTOM kpi (formCampaignGoal form) = Fin base ->
  exists gm : R,
    0.2 <= gm <= 1 /\
    getGoalMultiplier (formCampaignGoal form) = Fin gm /\
    calculateTOM parseFloat form (Fin f) kpi
    = Fin (base * (1 + (f - 1.0) * 0.08) * sqrt (b / 500000) * gm * 100 * 3.5).
Proof.
  intros Hb Hg Hp Hb0 Hbase.
  destruct (getGoalMultiplier_real (formCampaignGoal form)) as (gm & Egm & Hgm).
  exists gm. split; [exact Hgm |]. split; [exact Egm |].
  rewrite calculateTOM_formula by assumption.
  rewrite Hp, Hbase, Egm.
  rewrite div_Fin by lra.
  rewrite Math_sqrt_Fin by (unfold Rdiv; apply Rmult_le_pos; lra).
  autorewrite with fin. f_equal; lra.
Qed.


Lemma parseFloat_plain_two_million : parseFloat_plain "2000000" = Fin 2000000.
Proof.
  rewrite (parseFloat_plain_eq "2000000" false 2000000 0) by reflexivity.
  f_equal. simpl (10 ^ Z.of_nat 0)%Z. lra.
Qed.


Lemma ln_10_pos : 0 < ln 10.
Proof. rewrite <- ln_1. apply ln_increasing; lra. Qed.

Lemma log10_below_tenth (x : R) : 0 < x -> x < / 10 -> ln x / ln 10 < -1.
Proof.
  intros Hx Hlt. pose proof ln_10_pos as L.
  assert (A : ln x < - ln 10).
  { rewrite <- ln_Rinv by lra. now apply ln_increasing. }
  apply (Rmult_lt_reg_r (ln 10)); [exact L |].
  unfold Rdiv. rewrite Rmult_assoc, Rinv_l by lra. lra.
Qed.

Lemma log10_above_tenth (x : R) : / 10 < x -> -1 < ln x / ln 10.
Proof.
  intros Hlt. pose proof ln_10_pos as L.
  assert (A : - ln 10 < ln x).
  { rewrite <- ln_Rinv by lra. apply ln_increasing; lra. }
  apply (Rmult_lt_reg_r (ln 10)); [exact L |].
  unfold Rdiv. rewrite Rmult_assoc, Rinv_l by lra. lra.
Qed.

Lemma log10_tenth : ln (/ 10) / ln 10 = -1.
Proof.
  pose proof ln_10_pos as L. rewrite ln_Rinv by lra. field. lra.
Qed.

Lemma log10_from_ten (x : R) : 10 <= x -> 1 <= ln x / ln 10.
Proof.
  intros Hx. pose proof ln_10_pos as L.
  assert (A : ln 10 <= ln x).
  { destruct Hx as [Hx | <-]; [left; apply ln_increasing; lra | right; reflexivity]. }
  apply (Rmult_le_reg_r (ln 10)); [exact L |].
  unfold Rdiv. rewrite Rmult_assoc, Rinv_l by lra. lra.
Qed.



Lemma Math_log10_zero : Math_log10 (Fin 0) = NInf.
Proof.
  unfold Math_log10. destruct (Rlt_dec 0 0); [lra |].
  destruct (Req_dec_T 0 0); [reflexivity | contradiction].
Qed.

Lemma Math_log10_negative (a : R) : a < 0 -> Math_log10 (Fin a) = NaN.
Proof.
  intros H. unfold Math_log10. destruct (Rlt_dec a 0); [reflexivity | lra].
Qed.

Lemma mul_pos_NInf (k : R) : 0 < k -> (Fin k * NInf)%num = NInf.
Proof.
  intros H. unfold mul, mul_inf.
  destruct (Req_dec_T k 0); [lra |]. destruct (Rlt_dec 0 k); [reflexivity | lra].
Qed.

Lemma mul_NInf_pos (k : R) : 0 < k -> (NInf * Fin k)%num = NInf.
Proof.
  intros H. unfold mul, mul_inf.
  destruct (Req_dec_T k 0); [lra |]. destruct (Rlt_dec 0 k); [reflexivity | lra].
Qed.

(** X6: the budget is guarded against the empty string only.  With a goal
    set, a budget that parses to a negative number makes the LTV growth
    NaN, and a budget that parses to 0 makes it -Infinity when the other
    factors are positive. *)
Theorem X6_ltv_growth_unguarded parseFloat inheritedKey (form : AIFormData)
    (freq : num) (sliders : SliderParams) kpi :
  budget form <> "" -> formCampaignGoal form <> "" ->
  (forall b : R,
     parseFloat (budget form) = Fin b -> b < 0 ->
     calculateLTVGrowth parseFloat inheritedKey form freq sliders kpi = NaN) /\
  (forall f m base : R,
     parseFloat (budget form) = Fin 0 ->
     inheritedKey (formCampaignGoal form) = false ->
     freq = Fin f -> 1 <= f ->
     marketSaturation sliders = Fin m -> -2 <= m <= 2 ->
     retention_ltv_base kpi = Fin base -> 0 < base ->
     calculateLTVGrowth parseFloat inheritedKey form freq sliders kpi = NInf).
Proof.
  intros Hb Hg. split.
  - intros b Hp Hneg. rewrite calculateLTVGrowth_formula by assumption.
    rewrite Hp, div_Fin by lra.
    rewrite Math_log10_negative by (unfold Rdiv; nra).
    change (Math_min (1.0 + NaN)%num 2.0) with NaN.
    rewrite mul_NaN_r. reflexivity.
  - intros f m base Hp Hi -> Hf Hm Hmr Hbase Hbase0.
    destruct (ltvGoalMultiplier_real inheritedKey (formCampaignGoal form) Hi)
      as (gm & Egm & Hgm).
    rewrite calculateLTVGrowth_formula by assumption.
    rewrite Hp, Hm, Hbase, Egm, div_Fin by lra.
    replace (0 / 1000000) with 0 by lra. rewrite Math_log10_zero.
    change (Math_min (1.0 + NInf)%num 2.0) with NInf.
    autorewrite with fin.
    rewrite mul_pos_NInf.
    + rewrite !mul_NInf_pos by lra. reflexivity.
    + apply Rmult_lt_0_compat; [| lra]. apply Rmult_lt_0_compat; [| lra].
      apply Rmult_lt_0_compat; lra.
Qed.

Lemma X6_ltv_growth_unguarded_witness :
  calculateLTVGrowth parseFloat_plain inheritedKey_none
    (mkAIFormData "Brand" "-5" "retention") (Fin 1) initialParams initialKpiBenchmarks
  = NaN
  /\
  calculateLTVGrowth parseFloat_plain inheritedKey_none
    (mkAIFormData "Brand" "0" "retention") (Fin 1) initialParams initialKpiBenchmarks
  = NInf.
Proof.
  split.
  - refine (proj1 (X6_ltv_growth_unguarded parseFloat_plain inheritedKey_none
              (mkAIFormData "Brand" "-5" "retention") (Fin 1) initialParams
              initialKpiBenchmarks _ _) (-5) _ _).
    + discriminate.
    + discriminate.
    + apply parseFloat_plain_minus_five.
    + lra.
  - refine (proj2 (X6_ltv_growth_unguarded parseFloat_plain inheritedKey_none
              (mkAIFormData "Brand" "0" "retention") (Fin 1) initialParams
              initialKpiBenchmarks _ _) 1 0 0.04 _ _ _ _ _ _ _ _).
    + discriminate.
    + discriminate.
    + apply parseFloat_plain_zero.
    + reflexivity.
    + reflexivity.
    + lra.
    + reflexivity.
    + lra.
    + reflexivity.
    + lra.
Defined.

(** * Further properties of the presentation *)

(** X7: the label of the KPI card and the metric it shows agree: the label
    is the LTV label exactly when the goal is retention, which is exactly
    when the LTV growth is shown; for every other goal, known or not, the
    card shows the TOM metric. *)
Theorem X7_label_matches_metric (goal : string) :
  (getKPILabel goal = "Рост LTV" <-> goal = "retention") /\
  (shownMetric goal = ShowsLTVGrowth <-> goal = "retention") /\
  (getKPILabel goal = "Рост LTV" <-> shownMetric goal = ShowsLTVGrowth) /\
  (goal <> "awareness" -> goal <> "consideration" -> goal <> "conversion" ->
   goal <> "retention" ->
   getKPILabel goal = "Эффективность" /\ shownMetric goal = ShowsTOM).
Proof.
  assert (L : getKPILabel goal = "Рост LTV" <-> goal = "retention").
  { unfold getKPILabel.
    destruct (String.eqb_spec goal "awareness") as [-> | N1];
      [split; intros H; [apply String.eqb_eq in H | ]; discriminate |].
    destruct (String.eqb_spec goal "consideration") as [-> | N2];
      [split; intros H; [apply String.eqb_eq in H | ]; discriminate |].
    destruct (String.eqb_spec goal "conversion") as [-> | N3];
      [split; intros H; [apply String.eqb_eq in H | ]; discriminate |].
    destruct (String.eqb_spec goal "retention") as [-> | N4]; [tauto |].
    split; intros H; [apply String.eqb_eq in H; discriminate | contradiction]. }
  assert (S : shownMetric goal = ShowsLTVGrowth <-> goal = "retention").
  { unfold shownMetric. destruct (String.eqb_spec goal "retention") as [-> | N].
    - tauto.
    - split; [discriminate | contradiction]. }
  split; [exact L |]. split; [exact S |]. split; [tauto |].
  intros H1 H2 H3 H4. unfold getKPILabel, shownMetric.
  apply String.eqb_neq in H1, H2, H3, H4. rewrite H1, H2, H3, H4. split; reflexivity.
Qed.

Lemma X7_label_matches_metric_witness :
  getKPILabel "brand lift" = "Эффективность" /\ shownMetric "brand lift" = ShowsTOM.
Proof.
  apply (proj2 (proj2 (proj2 (X7_label_matches_metric "brand lift")))); discriminate.
Defined.

Lemma num_le_Fin (a b : R) : num_le (Fin a) (Fin b) = true <-> a <= b.
Proof.
  unfold num_le. destruct (Rle_dec a b); split; intros; try tauto; discriminate.
Qed.


(** X9: the colour of the frequency panel for real sliders is an hsl colour
    whose hue lies between 0 and 120: 120 at the lowest frequency 1, and
    smaller as the frequency grows. *)
Theorem X9_frequency_hue_range NumberToString (p : SliderParams) :
  realValued p ->
  exists f h : R,
    frequency p = Fin f /\
    getFrequencyColor NumberToString (frequency p)
    = "hsl(" ++ NumberToString (Fin h) ++ ", 70%, 50%)" /\
    h = 120 * (15 - f) / 14 /\ 0 <= h <= 120 /\ (f = 1 -> h = 120).
Proof.
  intros Hp. destruct (frequency_lower_bound p Hp) as (f & Ef & Hf).
  exists f, ((1 - (f - 1.0) / 14.0) * 120). rewrite Ef.
  split; [reflexivity |]. split.
  - unfold getFrequencyColor. rewrite sub_Fin, div_Fin by lra.
    rewrite sub_Fin, mul_Fin. reflexivity.
  - split; [lra |]. split; lra.
Qed.

Lemma X9_frequency_hue_range_witness :
  exists f h : R,
    frequency initialParams = Fin f /\
    getFrequencyColor (fun _ => "120") (frequency initialParams)
    = "hsl(" ++ (fun _ : num => "120") (Fin h) ++ ", 70%, 50%)" /\
    h = 120 * (15 - f) / 14 /\ 0 <= h <= 120 /\ (f = 1 -> h = 120).
Proof.
  apply (X9_frequency_hue_range (fun _ => "120") initialParams).
  unfold realValued, initialParams, Object_values; simpl.
  repeat constructor; exists 0; reflexivity.
Defined.


(** * Further properties of the search hook *)

Lemma pow2_ge_1 (n : nat) : 1 <= 2 ^ n.
Proof. apply pow_R1_Rle. lra. Qed.

Lemma pow2_monotone (m n : nat) : (m <= n)%nat -> 2 ^ m <= 2 ^ n.
Proof. intros H. apply Rle_pow; [lra | exact H]. Qed.

(** X11: the retry delay starts at 1000, doubles with each attempt, never
    decreases and never exceeds 30000: it is 1000 * 2^n up to the fourth
    attempt index and 30000 from the fifth on. *)
Theorem X11_retryDelay_capped (n : nat) :
  exists d : R,
    retryDelay n = Fin d /\
    1000 <= d <= 30000 /\
    ((n <= 4)%nat -> d = 1000 * 2 ^ n) /\
    ((5 <= n)%nat -> d = 30000) /\
    (forall m e, (m <= n)%nat -> retryDelay m = Fin e -> e <= d).
Proof.
  unfold retryDelay. exists (Rmin (1000 * 2 ^ n) 30000).
  split; [reflexivity |].
  pose proof (pow2_ge_1 n) as P1.
  split; [unfold Rmin; destruct (Rle_dec (1000 * 2 ^ n) 30000); lra |].
  split; [| split].
  - intros H. pose proof (pow2_monotone n 4 H) as P.
    replace (2 ^ 4) with 16 in P by (simpl; lra).
    unfold Rmin. destruct (Rle_dec (1000 * 2 ^ n) 30000); lra.
  - intros H. pose proof (pow2_monotone 5 n H) as P.
    replace (2 ^ 5) with 32 in P by (simpl; lra).
    unfold Rmin. destruct (Rle_dec (1000 * 2 ^ n) 30000); lra.
  - intros m e Hm E. rewrite mul_Fin, Math_min_Fin in E. injection E as <-.
    pose proof (pow2_monotone m n Hm) as P.
    unfold Rmin. destruct (Rle_dec (1000 * 2 ^ m) 30000);
      destruct (Rle_dec (1000 * 2 ^ n) 30000); lra.
Qed.

Lemma X11_retryDelay_capped_witness :
  exists d : R,
    retryDelay 1 = Fin d /\
    1000 <= d <= 30000 /\
    ((1 <= 4)%nat -> d = 1000 * 2 ^ 1) /\
    ((5 <= 1)%nat -> d = 30000) /\
    (forall m e, (m <= 1)%nat -> retryDelay m = Fin e -> e <= d).
Proof. apply (X11_retryDelay_capped 1). Defined.

(** * Further properties of the response effect *)

Section ResponseEffectFurther.

Variable JSON_parse : string -> jsval + string.
Variable match_fenced : string -> option (string * string).
Variable match_braces : string -> option string.
Variable in_TypeError : string -> jsval -> string.
Variable StringToNumber : string -> num.
Variable ArrayToString : list jsval -> string + string.
Variable ToPrimitive_TypeError : jsval -> string.

Local Abbreviation extract' :=
  (extract JSON_parse match_fenced match_braces in_TypeError).
Local Abbreviation paramValue' :=
  (paramValue StringToNumber ArrayToString ToPrimitive_TypeError).
Local Abbreviation newParams' :=
  (newParams StringToNumber ArrayToString ToPrimitive_TypeError).
Local Abbreviation commit' :=
  (commit StringToNumber ArrayToString ToPrimitive_TypeError).
Local Abbreviation tryBody' :=
  (tryBody JSON_parse match_fenced match_braces in_TypeError StringToNumber
     ArrayToString ToPrimitive_TypeError).
Local Abbreviation processAIResponse' :=
  (processAIResponse JSON_parse match_fenced match_braces in_TypeError
     StringToNumber ArrayToString ToPrimitive_TypeError).

(** X12: what the effect does depends on the answer alone, not on the state
    it finds: it does nothing in every state, or commits the same analysis
    in every state, or stores the same message in every state.  So running
    it again on the same answer changes nothing more, and after a
    successful analysis nothing of the earlier state is left: the state is
    the same from wherever the effect started.  A commit that the effect
    amounts to always runs its setters: a payload whose values cannot be
    converted falls under the stored message. *)
Theorem X12_effect_uniform_idempotent (aiData : option jsval) :
  ((forall st, processAIResponse' aiData st = (Returned, st)) \/
   (exists parsed parameters,
      validParameters parsed = Some parameters /\
      forall st, processAIResponse' aiData st = commit' parsed parameters st) \/
   (exists o msg,
      truthy_val msg = true /\ (forall message, o <> Threw message) /\
      forall st, processAIResponse' aiData st = (o, snd (setAIErrorMessage msg st)))) /\
  (forall st,
     snd (processAIResponse' aiData (snd (processAIResponse' aiData st)))
     = snd (processAIResponse' aiData st)) /\
  (forall st1 st2,
     analysisComplete (snd (processAIResponse' aiData st1)) = true ->
     analysisComplete st1 = false ->
     snd (processAIResponse' aiData st2) = snd (processAIResponse' aiData st1)) /\
  (forall parsed parameters,
     (forall st, processAIResponse' aiData st = commit' parsed parameters st) ->
     forall st, fst (commit' parsed parameters st) = Val tt).
Proof.
  pose proof (processAIResponse_uniformly JSON_parse match_fenced match_braces
                in_TypeError StringToNumber ArrayToString ToPrimitive_TypeError
                aiData) as U.
  split; [| split; [| split]].
  - destruct U as [H | [(parsed & parameters & np & V & N & H) | H]].
    + now left.
    + right; left. now exists parsed, parameters.
    + now right; right.
  - intros st.
    destruct U as [H | [(parsed & parameters & np & V & N & H) | (o & msg & T & No & H)]].
    + rewrite !H. reflexivity.
    + rewrite !H, !(commit_run _ _ _ _ _ np) by exact N. reflexivity.
    + rewrite !H. reflexivity.
  - intros st1 st2 Hc Hn.
    destruct U as [H | [(parsed & parameters & np & V & N & H) | (o & msg & T & No & H)]].
    + rewrite H in Hc. simpl in Hc. congruence.
    + rewrite !H, !(commit_run _ _ _ _ _ np) by exact N. reflexivity.
    + rewrite H in Hc. simpl in Hc. congruence.
  - intros parsed parameters H st.
    destruct (commit_cases StringToNumber ArrayToString ToPrimitive_TypeError
                parsed parameters) as [(np & _ & C) | (message & _ & C)];
      [apply C |].
    exfalso.
    apply (processAIResponse_never_throws JSON_parse match_fenced match_braces
             in_TypeError StringToNumber ArrayToString ToPrimitive_TypeError
             aiData st message).
    rewrite H, C. reflexivity.
Qed.

Lemma paramValue_in_range (parameters : jsval) (key : string) :
  (optGet (get parameters key) "value" = None \/
   optGet (get parameters key) "value" = Some JNull \/
   exists r : R, optGet (get parameters key) "value" = Some (JNum (Fin r))) ->
  exists c : R, paramValue' parameters key = inl (Fin c) /\ -2 <= c <= 2.
Proof.
  intros [H | [H | (r & H)]].
  - exists 0. split; [apply paramValue_missing; now left | lra].
  - exists 0. split; [apply paramValue_missing; now right | lra].
  - exists (Rmax (-2) (Rmin 2 r)).
    split; [rewrite (paramValue_number _ _ _ _ _ _ H), clamp_real; reflexivity |].
    apply Rmax_Rmin_bounds. lra.
Qed.

Lemma newParams_in_range (parameters : jsval) :
  (forall key field,
     In (key, field) sixKeys ->
     optGet (get parameters key) "value" = None \/
     optGet (get parameters key) "value" = Some JNull \/
     exists r : R, optGet (get parameters key) "value" = Some (JNum (Fin r))) ->
  exists np, newParams' parameters = inl np /\ inSliderRange np.
Proof.
  intros H. unfold newParams.
  destruct (paramValue_in_range parameters "brand_awareness") as (c1 & -> & R1);
    [apply (H "brand_awareness" brandAwareness); in_sixKeys |].
  destruct (paramValue_in_range parameters "market_saturation") as (c2 & -> & R2);
    [apply (H "market_saturation" marketSaturation); in_sixKeys |].
  destruct (paramValue_in_range parameters "campaign_goal") as (c3 & -> & R3);
    [apply (H "campaign_goal" campaignGoal); in_sixKeys |].
  destruct (paramValue_in_range parameters "target_audience") as (c4 & -> & R4);
    [apply (H "target_audience" targetAudience); in_sixKeys |].
  destruct (paramValue_in_range parameters "product_complexity") as (c5 & -> & R5);
    [apply (H "product_complexity" productComplexity); in_sixKeys |].
  destruct (paramValue_in_range parameters "message_complexity") as (c6 & -> & R6);
    [apply (H "message_complexity" messageComplexity); in_sixKeys |].
  eexists. split; [reflexivity |].
  unfold inSliderRange, Object_values.
  cbn [brandAwareness marketSaturation campaignGoal targetAudience
       productComplexity messageComplexity].
  repeat constructor; eexists; (split; [reflexivity | assumption]).
Qed.


Lemma or_default_keeps (v d : jsval) :
  truthy_val v = true -> or_default (Some v) d = v.
Proof. intros H. unfold or_default. rewrite H. reflexivity. Qed.

(** X14: once an analysis is committed, the test that guards the list of
    insight cards holds and no card is skipped for want of an entry: each
    of the six sliders finds an entry under the key its card reads, and the
    entry carries the value of that slider.  The text and the source of the
    entry are those of the payload when they are truthy, a non-empty string
    for one, and the placeholder texts when they are missing, null, empty
    or otherwise falsy. *)
Theorem X14_every_card_has_insight (parsed parameters : jsval) (st st' : State)
    (key : SliderKey) :
  commit' parsed parameters st = (Val tt, st') ->
  insightsShown st' = true /\
  exists entry,
    insightCard st' key = Some entry /\
    id entry = insightKey key /\
    value entry = sliderOf key (params st') /\
    (forall v,
       optGet (get parameters (insightKey key)) "insight" = Some v ->
       truthy_val v = true -> insight entry = v) /\
    (forall text,
       optGet (get parameters (insightKey key)) "insight" = Some (JStr text) ->
       text <> "" -> insight entry = JStr text) /\
    (truthy_opt (optGet (get parameters (insightKey key)) "insight") = false ->
     insight entry = JStr "Инсайт недоступен") /\
    (forall v,
       optGet (get parameters (insightKey key)) "source" = Some v ->
       truthy_val v = true -> source entry = v) /\
    (truthy_opt (optGet (get parameters (insightKey key)) "source") = false ->
     source entry = JStr "ИИ-Анализ").
Proof.
  intros Hc.
  destruct (commit_value_inv _ _ _ _ _ _ _ Hc) as (np & N & ->).
  split; [reflexivity |].
  unfold insightCard. cbn [params insights].
  exists (newInsight parameters (insightKey key) (sliderOf key np)).
  split; [destruct key; reflexivity |].
  split; [reflexivity |]. split; [reflexivity |].
  unfold newInsight. cbn [insight source].
  split; [| split; [| split; [| split]]].
  - intros v -> T. now apply or_default_keeps.
  - intros text -> T. apply or_default_keeps. simpl.
    apply str_falsy_false_iff in T. rewrite T. reflexivity.
  - apply or_default_falsy.
  - intros v -> T. now apply or_default_keeps.
  - apply or_default_falsy.
Qed.

Lemma not_null_or_default (o : option jsval) :
  not_null (or_default o JNull) = truthy_opt o.
Proof.
  unfold or_default, truthy_opt. destruct o as [v |]; [| reflexivity].
  destruct (truthy_val v) eqn:T; [| reflexivity].
  destruct v; try reflexivity. discriminate.
Qed.

Lemma truthy_or_default_empty (o : option jsval) :
  truthy_val (or_default o (JStr "")) = truthy_opt o.
Proof.
  unfold or_default, truthy_opt. destruct o as [v |]; [| reflexivity].
  destruct (truthy_val v) eqn:T; [exact T | reflexivity].
Qed.


(** X16: an answer whose response is a string is never parsed: the test
    ['choices' in response] throws first, so the effect stores the message
    of that TypeError and leaves the rest of the state as it was, even when
    the string is the JSON text of a complete payload. *)
Theorem X16_string_response_rejected (v : jsval) (s : string) (st : State) :
  truthy_val v = true ->
  truthy_opt (get v "successful") = true ->
  optGet (get v "data") "response" = Some (JStr s) ->
  s <> "" ->
  processAIResponse' (Some v) st
  = (Val tt,
     snd (setAIErrorMessage
            (JStr ("Не удалось распарсить ответ ИИ: "
                   ++ in_TypeError "choices" (JStr s))) st)).
Proof.
  intros Hv Hs Hd Hne.
  apply (processAIResponse_caught JSON_parse match_fenced match_braces in_TypeError
           StringToNumber ArrayToString ToPrimitive_TypeError v (JStr s));
    [exact Hv | exact Hs | exact Hd | | reflexivity].
  simpl. apply str_falsy_false_iff in Hne. rewrite Hne. reflexivity.
Qed.

Lemma scanFields_first_text (response : jsval) (field : string)
    (rest : list string) (text : string) (v : jsval) :
  js_in field response = Some true ->
  get response field = Some (JStr text) ->
  JSON_parse text = inl v ->
  scanFields JSON_parse match_fenced match_braces response (field :: rest) = Some v.
Proof.
  intros Hin Hget Hparse. cbn [scanFields]. rewrite Hin, Hget, Hparse. reflexivity.
Qed.


End ResponseEffectFurther.



Lemma X12_effect_uniform_idempotent_witness :
  snd (processAIResponse_sample (Some (successfulAnswer (payloadWithInsight "direct")))
         previousState)
  = snd (processAIResponse_sample (Some (successfulAnswer (payloadWithInsight "direct")))
           initialState).
Proof.
  assert (N : newParams StringToNumber_sample ArrayToString_sample
                ToPrimitive_TypeError_sample
                (JObj [("brand_awareness",
                        JObj [("value", JNum 0.5); ("insight", JStr "direct")])])
              = inl (mkSliderParams (clamp 0.5) 0 0 0 0 0)).
  { apply newParams_sample_brand. now apply paramValue_number. }
  unfold processAIResponse_sample.
  refine (proj1 (proj2 (proj2 (X12_effect_uniform_idempotent JSON_parse_sample
            match_fenced_sample match_braces_sample in_TypeError_sample
            StringToNumber_sample ArrayToString_sample ToPrimitive_TypeError_sample
            (Some (successfulAnswer (payloadWithInsight "direct"))))))
            initialState previousState _ _); [| reflexivity].
  unfold payloadWithInsight.
  erewrite processAIResponse_sample_direct;
    [| discriminate | reflexivity | reflexivity | exact N].
  reflexivity.
Defined.


Lemma X14_every_card_has_insight_witness :
  let parameters :=
    JObj [("brand_awareness", JObj [("insight", JStr "well known")])] in
  let st' :=
    snd (commit StringToNumber_sample ArrayToString_sample
           ToPrimitive_TypeError_sample (JObj [("parameters", parameters)])
           parameters initialState) in
  insightsShown st' = true /\
  exists entry,
    insightCard st' keyBrandAwareness = Some entry /\
    insight entry = JStr "well known" /\
    source entry = JStr "ИИ-Анализ".
Proof.
  intros parameters st'.
  assert (N : newParams StringToNumber_sample ArrayToString_sample
                ToPrimitive_TypeError_sample parameters
              = inl initialParams).
  { apply (newParams_sample_brand _ (Fin 0)).
    apply paramValue_missing. left. reflexivity. }
  assert (Hc : commit StringToNumber_sample ArrayToString_sample
                 ToPrimitive_TypeError_sample (JObj [("parameters", parameters)])
                 parameters initialState
               = (Val tt, st')).
  { subst st'. rewrite (commit_run _ _ _ _ _ _ _ N). reflexivity. }
  destruct (X14_every_card_has_insight StringToNumber_sample ArrayToString_sample
              ToPrimitive_TypeError_sample _ _ _ _ keyBrandAwareness Hc)
    as (Shown & entry & Card & _ & _ & _ & Text & _ & _ & Source).
  split; [exact Shown |].
  exists entry. split; [exact Card |]. split.
  - apply (Text "well known"); [reflexivity | discriminate].
  - apply Source. reflexivity.
Defined.


Lemma X16_string_response_rejected_witness :
  JSON_parse_sample payloadText = inl (JObj [("parameters", JObj [])]) /\
  processAIResponse_sample (Some (successfulAnswer (JStr payloadText))) previousState
  = (Val tt,
     snd (setAIErrorMessage
            (JStr ("Не удалось распарсить ответ ИИ: "
                   ++ in_TypeError_sample "choices" (JStr payloadText)))
            previousState)).
Proof.
  split; [reflexivity |].
  apply (X16_string_response_rejected JSON_parse_sample match_fenced_sample
           match_braces_sample in_TypeError_sample StringToNumber_sample
           ArrayToString_sample
           ToPrimitive_TypeError_sample (successfulAnswer (JStr payloadText)) payloadText
           previousState); try reflexivity.
  discriminate.
Defined.


(** * Further properties of the handlers *)

(** X18: after a reset the sliders are all 0, so the frequency is 1, and
    the form is empty, so the three metrics are 0; the insights are gone,
    the recommended budget is null and its reasoning empty, so the banner
    is not rendered, and the wizard is back on the first step with the
    manual view.  The reset does not touch the capacity, the benchmarks,
    the error message, the AI mode or the search parameters of an earlier
    analysis.  Resetting twice is resetting once. *)
Theorem X18_handleReset (app : App) parseFloat inheritedKey
    (kpi : KpiBenchmarks) (ta : num) :
  let app' := handleReset app in
  let st' := core app' in
  params st' = initialParams /\
  (forall key, sliderOf key (params st') = Fin 0) /\
  frequency (params st') = Fin 1 /\
  aiForm app' = mkAIFormData "" "" "" /\
  calculateTOM parseFloat (aiForm app') (frequency (params st')) kpi = Fin 0 /\
  calculateLTVGrowth parseFloat inheritedKey (aiForm app') (frequency (params st'))
    (params st') kpi = Fin 0 /\
  calculateCoverage parseFloat (aiForm app') (frequency (params st')) ta = Fin 0 /\
  insights st' = [] /\ insightsShown st' = false /\
  recommendedBudget st' = JNull /\ budgetReasoning st' = JStr "" /\
  budgetBannerTest st' = false /\ budgetBannerShown app' = false /\
  analysisComplete st' = false /\ paramView st' = manual /\
  wizardStep app' = stepBrand /\
  taCapacityRF st' = taCapacityRF (core app) /\
  kpiBenchmarks st' = kpiBenchmarks (core app) /\
  aiErrorMessage st' = aiErrorMessage (core app) /\
  isAIMode app' = isAIMode app /\
  aiSearchParams app' = aiSearchParams app /\
  handleReset app' = app'.
Proof.
  intros app' st'. subst st' app'.
  assert (F : frequency initialParams = Fin 1).
  { unfold initialParams. rewrite frequency_real. f_equal.
    rewrite Rmax_Rmin_inside by lra. lra. }
  split; [reflexivity |].
  split; [intros key; destruct key; reflexivity |].
  split; [exact F |].
  repeat split; reflexivity.
Qed.

Lemma handleAIAnalyze_enabled systemPrompt (app : App) :
  analyzeDisabled app false = false ->
  handleAIAnalyze systemPrompt app
  = {| core :=
         snd ((setAIErrorMessage (JStr "") ;;;
               setAnalysisComplete false ;;;
               setAnalysisComplete false) (core app));
       aiForm := aiForm app;
       wizardStep := wizardStep app;
       isAIMode := isAIMode app;
       aiSearchParams :=
         Some {| systemContent := systemPrompt;
                 userContent := userContentOf (aiForm app);
                 model := "sonar-pro";
                 temperature := 0.7;
                 max_tokens := 3000 |} |}.
Proof.
  unfold analyzeDisabled, handleAIAnalyze. rewrite orb_false_r.
  intros ->. reflexivity.
Qed.

(** X19: the handler that starts the analysis does nothing unless brand,
    budget and goal are all filled in, which is when its button is enabled
    (loading aside).  When it runs, it clears the error message, drops
    [analysisComplete], so the AI tab and the insight panel are closed, and
    sets the search parameters, which enables the query; the sliders, the
    insights, the capacity, the benchmarks and the budget advice stay. *)
Theorem X19_handleAIAnalyze systemPrompt (app : App) :
  (analyzeDisabled app false = true -> handleAIAnalyze systemPrompt app = app) /\
  (analyzeDisabled app false = false ->
   let app' := handleAIAnalyze systemPrompt app in
   aiErrorMessage (core app') = JStr "" /\
   analysisComplete (core app') = false /\
   aiTabDisabled app' = true /\ insightsShown (core app') = false /\
   searchEnabled app' = true /\
   (exists input,
      aiSearchParams app' = Some input /\
      systemContent input = systemPrompt /\
      userContent input = userContentOf (aiForm app) /\
      model input = "sonar-pro") /\
   params (core app') = params (core app) /\
   insights (core app') = insights (core app) /\
   taCapacityRF (core app') = taCapacityRF (core app) /\
   kpiBenchmarks (core app') = kpiBenchmarks (core app) /\
   recommendedBudget (core app') = recommendedBudget (core app) /\
   budgetReasoning (core app') = budgetReasoning (core app) /\
   aiForm app' = aiForm app /\ wizardStep app' = wizardStep app).
Proof.
  unfold analyzeDisabled, handleAIAnalyze. rewrite orb_false_r.
  destruct (str_falsy (brandName (aiForm app)) || str_falsy (budget (aiForm app))
            || str_falsy (formCampaignGoal (aiForm app))).
  - split; [reflexivity | discriminate].
  - split; [discriminate |]. intros _. cbv zeta.
    unfold aiTabDisabled, insightsShown, searchEnabled, queryEnabled. simpl.
    rewrite orb_true_r.
    repeat split; try reflexivity.
    eexists. repeat split; reflexivity.
Qed.

Lemma X19_handleAIAnalyze_witness :
  let app :=
    mkApp previousState (mkAIFormData "Brand" "1000000" "awareness") stepParams
      true None in
  let app' := handleAIAnalyze "prompt" app in
  aiErrorMessage (core app') = JStr "" /\
  analysisComplete (core app') = false /\
  aiTabDisabled app' = true /\ insightsShown (core app') = false /\
  searchEnabled app' = true /\
  (exists input,
     aiSearchParams app' = Some input /\
     systemContent input = "prompt" /\
     userContent input = userContentOf (aiForm app) /\
     model input = "sonar-pro") /\
  params (core app') = params (core app) /\
  insights (core app') = insights (core app) /\
  taCapacityRF (core app') = taCapacityRF (core app) /\
  kpiBenchmarks (core app') = kpiBenchmarks (core app) /\
  recommendedBudget (core app') = recommendedBudget (core app) /\
  budgetReasoning (core app') = budgetReasoning (core app) /\
  aiForm app' = aiForm app /\ wizardStep app' = wizardStep app.
Proof.
  intros app.
  apply (proj2 (X19_handleAIAnalyze "prompt" app)). reflexivity.
Defined.

(** X20: the button that leaves the first step and its handler agree: the
    button is disabled exactly when the handler would do nothing, and once
    brand and budget are filled in the handler moves the wizard to the
    parameters step and changes nothing else, whether or not a goal was
    chosen. *)
Theorem X20_continue_guard (app : App) :
  (continueDisabled app = true -> handleContinueToBrand app = app) /\
  (continueDisabled app = false ->
   handleContinueToBrand app
   = mkApp (core app) (aiForm app) stepParams (isAIMode app) (aiSearchParams app)) /\
  (continueDisabled app = false <->
   brandName (aiForm app) <> "" /\ budget (aiForm app) <> "").
Proof.
  unfold continueDisabled, handleContinueToBrand.
  destruct (str_falsy (brandName (aiForm app))) eqn:B;
    destruct (str_falsy (budget (aiForm app))) eqn:M; simpl;
    (split; [try reflexivity; discriminate |]);
    (split; [try reflexivity; discriminate |]);
    split; try discriminate; try tauto.
  - intros [H _]. apply str_falsy_true_iff in B. contradiction.
  - intros [H _]. apply str_falsy_true_iff in B. contradiction.
  - intros [_ H]. apply str_falsy_true_iff in M. contradiction.
  - intros _. split; now apply str_falsy_false_iff.
Qed.

Lemma X20_continue_guard_witness :
  let app :=
    mkApp initialState (mkAIFormData "Brand" "1000000" "") stepBrand false None in
  handleContinueToBrand app
  = mkApp (core app) (aiForm app) stepParams (isAIMode app) (aiSearchParams app).
Proof.
  intros app. apply (proj1 (proj2 (X20_continue_guard app))). reflexivity.
Defined.

(** X21: an analysis that is started and then fails keeps the sliders and
    the insights of the earlier analysis in the state, but they are no
    longer shown: [analysisComplete] stays false, so the insight panel is
    hidden and the AI tab is disabled.  Only a successful answer opens them
    again, on the AI view. *)
Theorem X21_analyze_then_answer JSON_parse match_fenced match_braces in_TypeError
    StringToNumber ArrayToString ToPrimitive_TypeError systemPrompt (app : App)
    (aiData : option jsval) :
  analyzeDisabled app false = false ->
  let app1 := handleAIAnalyze systemPrompt app in
  let st' :=
    snd (processAIResponse JSON_parse match_fenced match_braces in_TypeError
           StringToNumber ArrayToString ToPrimitive_TypeError aiData (core app1)) in
  let app2 :=
    mkApp st' (aiForm app1) (wizardStep app1) (isAIMode app1) (aiSearchParams app1) in
  (truthy_val (aiErrorMessage st') = true ->
   params st' = params (core app) /\
   insights st' = insights (core app) /\
   analysisComplete st' = false /\
   insightsShown st' = false /\
   aiTabDisabled app2 = true) /\
  (analysisComplete st' = true ->
   aiErrorMessage st' = JStr "" /\
   insightsShown st' = true /\
   paramView st' = ai /\
   aiTabDisabled app2 = negb (isAIMode app)).
Proof.
  intros Hen app1 st' app2.
  pose proof (handleAIAnalyze_enabled systemPrompt app Hen) as A. fold app1 in A.
  assert (Ac : analysisComplete (core app1) = false) by (rewrite A; reflexivity).
  assert (Ap : params (core app1) = params (core app)) by (rewrite A; reflexivity).
  assert (Ai : insights (core app1) = insights (core app)) by (rewrite A; reflexivity).
  assert (Mode : isAIMode app1 = isAIMode app) by (rewrite A; reflexivity).
  subst app2 st'. unfold aiTabDisabled. cbn [core isAIMode].
  destruct (processAIResponse_uniformly JSON_parse match_fenced match_braces
              in_TypeError StringToNumber ArrayToString ToPrimitive_TypeError aiData)
    as [H | [(parsed & parameters & np & V & Np & H) | (o & msg & T & N & H)]];
    rewrite H; clear H.
  - cbn [snd]. split.
    + intros _. unfold insightsShown. rewrite Ap, Ai, Ac.
      repeat split. apply orb_true_r.
    + rewrite Ac. discriminate.
  - rewrite (commit_run _ _ _ _ _ np) by exact Np.
    cbn [snd aiErrorMessage analysisComplete paramView].
    split; [discriminate |]. intros _.
    split; [reflexivity |]. split; [reflexivity |]. split; [reflexivity |].
    rewrite Mode. apply orb_false_r.
  - unfold setAIErrorMessage, insightsShown.
    cbn [snd params insights analysisComplete aiErrorMessage].
    rewrite Ap, Ai, Ac. split.
    + intros _. repeat split. apply orb_true_r.
    + discriminate.
Qed.

Lemma X21_analyze_then_answer_witness :
  let app :=
    mkApp previousState (mkAIFormData "Brand" "1000000" "awareness") stepParams
      true None in
  let app1 := handleAIAnalyze "prompt" app in
  let st' := snd (processAIResponse_sample (Some failedAnswer) (core app1)) in
  let app2 :=
    mkApp st' (aiForm app1) (wizardStep app1) (isAIMode app1) (aiSearchParams app1) in
  params st' = params (core app) /\
  insights st' = insights (core app) /\
  analysisComplete st' = false /\
  insightsShown st' = false /\
  aiTabDisabled app2 = true.
Proof.
  intros app.
  refine (proj1 (X21_analyze_then_answer JSON_parse_sample match_fenced_sample
            match_braces_sample in_TypeError_sample StringToNumber_sample
            ArrayToString_sample
            ToPrimitive_TypeError_sample "prompt" app (Some failedAnswer) _) _);
    reflexivity.
Defined.

(** * Further properties of saving and of the query *)

(** X22: a row is handed to the history only on the results step and for an
    authenticated user, and then exactly one.  It carries the six sliders
    and the frequency computed from them.  In manual mode the brand, the
    budget and the goal are null even when the form is filled in; in AI
    mode the budget is null when the form has none. *)
Theorem X22_saveCalculation parseFloat (app : App) (authenticated : string + bool)
    (now : string) :
  (saveCalculation parseFloat app authenticated now <> [] <->
   wizardStep app = stepResults /\ authenticated = inr true) /\
  (forall row,
     In row (saveCalculation parseFloat app authenticated now) ->
     saveCalculation parseFloat app authenticated now = [row] /\
     CalculationHistory.calculated_frequency row = frequency (params (core app)) /\
     CalculationHistory.brand_awareness row = brandAwareness (params (core app)) /\
     CalculationHistory.market_saturation row = marketSaturation (params (core app)) /\
     CalculationHistory.campaign_goal_param row = campaignGoal (params (core app)) /\
     CalculationHistory.target_audience row = targetAudience (params (core app)) /\
     CalculationHistory.product_complexity row = productComplexity (params (core app)) /\
     CalculationHistory.message_complexity row = messageComplexity (params (core app)) /\
     CalculationHistory.calculation_time row = now /\
     (isAIMode app = false ->
      CalculationHistory.mode row = CalculationHistory.Manual /\
      CalculationHistory.brand_name row = None /\
      CalculationHistory.budget row = None /\
      CalculationHistory.campaign_goal row = None) /\
     (isAIMode app = true ->
      CalculationHistory.mode row = CalculationHistory.AI /\
      CalculationHistory.brand_name row = Some (brandName (aiForm app)) /\
      CalculationHistory.campaign_goal row = Some (formCampaignGoal (aiForm app)) /\
      (budget (aiForm app) = "" -> CalculationHistory.budget row = None) /\
      (budget (aiForm app) <> "" ->
       CalculationHistory.budget row = Some (parseFloat (budget (aiForm app)))))).
Proof.
  unfold saveCalculation. split.
  - destruct (wizardStep app); destruct authenticated as [m | []]; split;
      try (intros H; contradiction H; reflexivity);
      try (intros [H1 H2]; discriminate);
      try (intros _; split; reflexivity);
      try (intros _; discriminate).
  - intros row Hin.
    destruct (wizardStep app); try contradiction.
    destruct authenticated as [m | []]; try contradiction.
    destruct Hin as [<- | []].
    cbn [CalculationHistory.calculated_frequency CalculationHistory.brand_awareness
         CalculationHistory.market_saturation CalculationHistory.campaign_goal_param
         CalculationHistory.target_audience CalculationHistory.product_complexity
         CalculationHistory.message_complexity CalculationHistory.calculation_time
         CalculationHistory.mode CalculationHistory.brand_name
         CalculationHistory.budget CalculationHistory.campaign_goal].
    repeat (split; [reflexivity |]).
    split.
    + intros ->. repeat split.
    + intros ->. repeat split.
      * intros ->. reflexivity.
      * intros H. apply str_falsy_false_iff in H. rewrite H. reflexivity.
Qed.

Lemma X22_saveCalculation_witness :
  let app :=
    mkApp previousState (mkAIFormData "Brand" "1000000" "awareness") stepResults
      false None in
  saveCalculation parseFloat_plain app (inr true) "2025-01-01T00:00:00.000Z" <> [] /\
  forall row,
    In row (saveCalculation parseFloat_plain app (inr true) "2025-01-01T00:00:00.000Z") ->
    CalculationHistory.brand_name row = None /\
    CalculationHistory.budget row = None /\
    CalculationHistory.campaign_goal row = None.
Proof.
  intros app.
  pose proof (X22_saveCalculation parseFloat_plain app (inr true)
                "2025-01-01T00:00:00.000Z") as [Saved Rows].
  split.
  - apply Saved. split; reflexivity.
  - intros row Hin.
    destruct (Rows row Hin) as (_ & _ & _ & _ & _ & _ & _ & _ & _ & M & _).
    destruct (M eq_refl) as (_ & B & G & C). repeat split; assumption.
Defined.

(** X23: the query resolves only with what [JSON.parse] makes of a truthy
    [content[0].text] of the tool's response.  Without parameters it is
    rejected before the tool is called; a rejection of the tool is passed
    on; a response without a truthy [content[0].text] is rejected as an
    invalid format before any parsing; text that does not parse is rejected
    with the parser's message behind a fixed prefix. *)
Theorem X23_queryFn JSON_parse ToString null_TypeError
    (params : option PerplexitySearchInput)
    (callMCPTool : PerplexitySearchInput -> string + jsval) :
  let run := queryFn JSON_parse ToString null_TypeError params callMCPTool in
  let asText := fun text => match text with JStr s => s | _ => ToString text end in
  (params = None -> run = inl "Parameters are required for Perplexity AI search") /\
  (forall toolData,
     run = inr toolData ->
     exists p response text,
       params = Some p /\ callMCPTool p = inr response /\
       optGet (optIndex0 (get response "content")) "text" = Some text /\
       truthy_val text = true /\
       JSON_parse (asText text) = inl toolData) /\
  (forall p rejected,
     params = Some p -> callMCPTool p = inl rejected -> run = inl rejected) /\
  (forall p response,
     params = Some p -> callMCPTool p = inr response -> response <> JNull ->
     truthy_opt (optGet (optIndex0 (get response "content")) "text") = false ->
     run = inl "Invalid MCP response format: missing content[0].text") /\
  (forall p response text message,
     params = Some p -> callMCPTool p = inr response -> response <> JNull ->
     optGet (optIndex0 (get response "content")) "text" = Some text ->
     truthy_val text = true ->
     JSON_parse (asText text) = inr message ->
     run = inl ("Failed to parse MCP response JSON: " ++ message)).
Proof.
  intros run asText. subst run asText. unfold queryFn.
  split; [intros ->; reflexivity |].
  split; [| split; [| split]].
  - intros toolData H.
    destruct params as [p |]; [| discriminate].
    destruct (callMCPTool p) as [m | response] eqn:T; [discriminate |].
    assert (G : match optGet (optIndex0 (get response "content")) "text" with
                | Some text =>
                    if truthy_val text then
                      match JSON_parse
                              (match text with JStr s => s | _ => ToString text end)
                      with
                      | inl toolData => inr toolData
                      | inr message =>
                          inl ("Failed to parse MCP response JSON: " ++ message)
                      end
                    else inl "Invalid MCP response format: missing content[0].text"
                | None => inl "Invalid MCP response format: missing content[0].text"
                end = (inr toolData : string + jsval)).
    { destruct response; try exact H. discriminate. }
    clear H.
    destruct (optGet (optIndex0 (get response "content")) "text") as [text |] eqn:X;
      [| discriminate].
    destruct (truthy_val text) eqn:Y; [| discriminate].
    destruct (JSON_parse (match text with JStr s => s | _ => ToString text end))
      as [v | m] eqn:Z; [| discriminate].
    injection G as <-. exists p, response, text. repeat split; assumption.
  - intros p rejected -> T. rewrite T. reflexivity.
  - intros p response -> T N F. rewrite T.
    destruct (optGet (optIndex0 (get response "content")) "text") as [text |] eqn:X.
    + simpl in F. rewrite F. destruct response; try reflexivity. contradiction.
    + destruct response; try reflexivity. contradiction.
  - intros p response text message -> T N X Y Z. rewrite T, X, Y, Z.
    destruct response; try reflexivity. contradiction.
Qed.

Lemma X23_queryFn_witness :
  let input := mkPerplexitySearchInput "system" "user" "sonar-pro" 0.7 3000 in
  queryFn JSON_parse_sample (fun _ => "") "Cannot read properties of null"
    (Some input) (fun _ => inr (JObj [("content", JArr [])]))
  = inl "Invalid MCP response format: missing content[0].text".
Proof.
  intros input.
  refine (proj1 (proj2 (proj2 (proj2
            (X23_queryFn JSON_parse_sample (fun _ => "")
               "Cannot read properties of null" (Some input)
               (fun _ => inr (JObj [("content", JArr [])]))))))
            input (JObj [("content", JArr [])]) _ _ _ _);
    [reflexivity | reflexivity | discriminate | reflexivity].
Defined.
